(** * UAP: discovery client, action invoker and the example provider

    A shallow embedding of [agent/agent.py] (the two tools [uap_discover]
    and [uap_http]) and of [app/main.py] (the example hotel service), with
    the properties of the discovery-and-invocation protocol proved on it.

    Conventions of the embedding.
    - Python [str] values are [string]s of 8-bit characters; [upper] and
      [strip] are modelled on the ASCII range (bytes above 127 are left
      alone and are never white space).
    - JSON values as Python holds them after [json.loads]: [None], [bool],
      [int], [str], [list], [dict] (floats are not modelled).  A [dict] is
      the list of its items in insertion order, keys being distinct.
    - HTTP is an explicit collaborator: a [network] answers a request,
      knowing the requests sent before it.  Every request handed to the
      HTTP client is appended to a log, which the tools thread through.
    - Python exceptions are values of [exn]; a tool either returns or
      raises. *)

From Stdlib Require Import ZArith Ascii String List Bool Lia.
From stdpp Require Import base strings gmap.

Local Open Scope Z_scope.
#[local] Set Warnings "-register-all".

(** ** Python string operations *)

Module PyStr.

Definition code (c : ascii) : nat := nat_of_ascii c.

(** [str.isspace] on the ASCII range: TAB, LF, VT, FF, CR, FS, GS, RS, US
    and the space. *)
Definition is_space (c : ascii) : bool :=
  ((9 <=? code c)%nat && (code c <=? 13)%nat)
  || ((28 <=? code c)%nat && (code c <=? 32)%nat).

Definition is_lower (c : ascii) : bool :=
  (97 <=? code c)%nat && (code c <=? 122)%nat.

Definition upper_char (c : ascii) : ascii :=
  if is_lower c then ascii_of_nat (code c - 32) else c.

(** [s.upper()] *)
Fixpoint upper (s : string) : string :=
  match s with
  | EmptyString => EmptyString
  | String c r => String (upper_char c) (upper r)
  end.

(** [s.lstrip(...)], the characters to drop given by [p]. *)
Fixpoint lstrip_by (p : ascii -> bool) (s : string) : string :=
  match s with
  | EmptyString => EmptyString
  | String c r => if p c then lstrip_by p r else s
  end.

(** [s.rstrip(...)], the characters to drop given by [p]. *)
Fixpoint rstrip_by (p : ascii -> bool) (s : string) : string :=
  match s with
  | EmptyString => EmptyString
  | String c r =>
      match rstrip_by p r with
      | EmptyString => if p c then EmptyString else String c EmptyString
      | r' => String c r'
      end
  end.

Fixpoint mem_char (c : ascii) (chars : string) : bool :=
  match chars with
  | EmptyString => false
  | String d r => Ascii.eqb c d || mem_char c r
  end.

(** [s.rstrip(chars)] *)
Definition rstrip (chars s : string) : string :=
  rstrip_by (fun c => mem_char c chars) s.

(** [s.strip()] *)
Definition strip (s : string) : string :=
  lstrip_by is_space (rstrip_by is_space s).

(** [needle in hay] *)
Fixpoint contains (needle hay : string) : bool :=
  String.prefix needle hay
  || match hay with
     | EmptyString => false
     | String _ r => contains needle r
     end.

(** Truth value of a [str]: [not s] holds exactly for the empty string. *)
Definition truthy (s : string) : bool :=
  match s with EmptyString => false | _ => true end.

(** [n] copies of the character [c]. *)
Fixpoint replicate (n : nat) (c : ascii) : string :=
  match n with
  | O => EmptyString
  | S k => String c (replicate k c)
  end.

(** The last character of a string, if any. *)
Fixpoint last_char (s : string) : option ascii :=
  match s with
  | EmptyString => None
  | String c EmptyString => Some c
  | String _ r => last_char r
  end.

End PyStr.

(** ** JSON values *)

Inductive json : Type :=
| JNull
| JBool (b : bool)
| JNum (n : Z)
| JStr (s : string)
| JArr (items : list json)
| JObj (fields : list (string * json)).

Module Json.

(** The value stored under [key] in the items of a [dict]. *)
Fixpoint assoc (key : string) (fields : list (string * json)) : option json :=
  match fields with
  | [] => None
  | (k, v) :: rest => if String.eqb k key then Some v else assoc key rest
  end.

(** Python truth value of a decoded JSON value. *)
Definition truthy (v : json) : bool :=
  match v with
  | JNull => false
  | JBool b => b
  | JNum n => negb (n =? 0)
  | JStr s => PyStr.truthy s
  | JArr items => match items with [] => false | _ => true end
  | JObj fields => match fields with [] => false | _ => true end
  end.

(** [v == s] for a Python [str] [s]. *)
Definition eq_str (v : json) (s : string) : bool :=
  match v with
  | JStr t => String.eqb t s
  | _ => false
  end.

End Json.

(** ** HTTP as a collaborator *)

(** What the tools hand to [httpx.Client]: the method, the URL exactly as
    given, the [json=] body and the [params=] mapping. *)
Record request : Type := mk_request {
  req_method : string;
  req_url : string;
  req_json : option json;
  req_params : option json
}.

(** What the tools read of an [httpx.Response]: [status_code], the
    [content-type] header ([None] when the header is missing), [text], and
    the outcome of [json()] ([None] when the body does not decode). *)
Record response : Type := mk_response {
  status_code : Z;
  content_type : option string;
  text : string;
  json_body : option json
}.

Inductive net_result : Type :=
| Answered (resp : response)
| Unreachable.

(** The service side: an answer to each request, given the requests that
    were sent before it. *)
Definition network : Type := list request -> request -> net_result.

(** Python exceptions the tools can end with, one constructor for each
    class that is raised.  [ValueError msg] is the exception of the
    tools' own [raise ValueError(msg)]; [JSONDecodeError] is
    [json.JSONDecodeError], which Python declares as a subclass of
    [ValueError] (see [is_ValueError]).  [TransportError] stands for
    [httpx.TransportError] and its subclasses (no connection, time out, a
    URL without scheme); [HTTPStatusError] carries the response, as
    [httpx.HTTPStatusError] does in its [response] attribute. *)
Inductive exn : Type :=
| ValueError (msg : string)
| TransportError
| HTTPStatusError (resp : response)
| JSONDecodeError
| AttributeError
| TypeError
| KeyError (key : string).

(** [isinstance(e, ValueError)]: true of a [ValueError] and of its
    subclass [json.JSONDecodeError], of nothing else here. *)
Definition is_ValueError (e : exn) : bool :=
  match e with
  | ValueError _ | JSONDecodeError => true
  | _ => false
  end.

Inductive outcome (A : Type) : Type :=
| Return (a : A)
| Raise (e : exn).
Arguments Return {A} a.
Arguments Raise {A} e.

(** A computation that logs the requests it sends and may raise. *)
Definition M (A : Type) : Type := list request -> list request * outcome A.

Definition ret {A} (a : A) : M A := fun log => (log, Return a).

Definition raise {A} (e : exn) : M A := fun log => (log, Raise e).

Definition bind {A B} (m : M A) (k : A -> M B) : M B :=
  fun log =>
    match m log with
    | (log', Return a) => k a log'
    | (log', Raise e) => (log', Raise e)
    end.

Definition lift {A} (o : outcome A) : M A := fun log => (log, o).

Declare Scope py_scope.
Delimit Scope py_scope with py.
Notation "x <- m ;; k" := (bind m (fun x => k))
  (at level 100, m at next level, right associativity) : py_scope.
Notation "m ;;; k" := (bind m (fun _ => k))
  (at level 100, right associativity) : py_scope.

(** A tool call starts with an empty log. *)
Definition run {A} (m : M A) : list request * outcome A := m [].

Definition requests {A} (m : M A) : list request := fst (run m).

Definition result {A} (m : M A) : outcome A := snd (run m).

(** A computation only ever appends to the log. *)
Definition grows {A} (m : M A) : Prop :=
  forall log, exists suffix, fst (m log) = log ++ suffix.

(** ** agent/agent.py *)

Module Agent.

Local Open Scope py_scope.

(** [client.request(method, url, json=..., params=...)]: the request is
    logged, then answered by the network or lost in transport. *)
Definition client_request (net : network) (r : request) : M response :=
  fun log =>
    match net log r with
    | Answered resp => (log ++ [r], Return resp)
    | Unreachable => (log ++ [r], Raise TransportError)
    end.

(** The request of [client.get(url)]: no body, no parameters. *)
Definition GET (url : string) : request := mk_request "GET" url None None.

(** [client.get(url)] *)
Definition client_get (net : network) (url : string) : M response :=
  client_request net (GET url).

(** [client.get(v)] for a decoded JSON value [v]: httpx refuses a URL
    that is not a [str] before sending anything. *)
Definition client_get_value (net : network) (v : json) : M response :=
  match v with
  | JStr url => client_get net url
  | _ => raise TypeError
  end.

(** [resp.is_success] *)
Definition is_success (resp : response) : bool :=
  (200 <=? status_code resp) && (status_code resp <=? 299).

(** [resp.raise_for_status()]: httpx raises for every status that is not
    a success, the 4xx and 5xx among them. *)
Definition raise_for_status (resp : response) : M unit :=
  if is_success resp then ret tt else raise (HTTPStatusError resp).

(** [resp.json()] *)
Definition resp_json (resp : response) : M json :=
  match json_body resp with
  | Some v => ret v
  | None => raise JSONDecodeError
  end.

(** [v.get(key)]: only a [dict] has the method; a missing key gives
    [None]. *)
Definition py_get (v : json) (key : string) : outcome json :=
  match v with
  | JObj fields =>
      match Json.assoc key fields with
      | Some x => Return x
      | None => Return JNull
      end
  | _ => Raise AttributeError
  end.

(** [v.get(key, default)] *)
Definition py_get_default (v : json) (key : string) (default : json)
  : outcome json :=
  match v with
  | JObj fields =>
      match Json.assoc key fields with
      | Some x => Return x
      | None => Return default
      end
  | _ => Raise AttributeError
  end.

(** [v[key]] for a [str] key. *)
Definition py_subscript (v : json) (key : string) : outcome json :=
  match v with
  | JObj fields =>
      match Json.assoc key fields with
      | Some x => Return x
      | None => Raise (KeyError key)
      end
  | _ => Raise TypeError
  end.

Fixpoint chars (s : string) : list json :=
  match s with
  | EmptyString => []
  | String c r => JStr (String c EmptyString) :: chars r
  end.

(** [iter(v)]: a list yields its items, a dict its keys, a str its
    characters; nothing else is iterable. *)
Definition py_iter (v : json) : outcome (list json) :=
  match v with
  | JArr items => Return items
  | JObj fields => Return (map (fun kv => JStr (fst kv)) fields)
  | JStr s => Return (chars s)
  | _ => Raise TypeError
  end.

(** [next((mod for mod in modules if mod.get("id") == module_id), None)]:
    the generator stops at the first match, so later items are not
    looked at. *)
Fixpoint first_module (module_id : string) (modules : list json)
  : outcome (option json) :=
  match modules with
  | [] => Return None
  | md :: rest =>
      match py_get md "id" with
      | Raise e => Raise e
      | Return v =>
          if Json.eq_str v module_id then Return (Some md)
          else first_module module_id rest
      end
  end.

(** [[mod.get("id") for mod in modules]] *)
Fixpoint module_ids_of (modules : list json) : outcome (list json) :=
  match modules with
  | [] => Return []
  | md :: rest =>
      match py_get md "id" with
      | Raise e => Raise e
      | Return v =>
          match module_ids_of rest with
          | Raise e => Raise e
          | Return vs => Return (v :: vs)
          end
      end
  end.

(** The module to go on with after [if not module: ...]: the value
    [next] gave back, unless it is [None] or false as a condition. *)
Definition found (module : option json) : option json :=
  match module with
  | Some v => if Json.truthy v then Some v else None
  | None => None
  end.

(** The module id to go on with after [if not module_id: ...], for
    [module_id: str | None]: neither [None] nor the empty string. *)
Definition given (module_id : option string) : option string :=
  match module_id with
  | Some s => if PyStr.truthy s then Some s else None
  | None => None
  end.

(** The [str] a tool returns, kept as the expression that builds it:
    Python's own renderings ([json.dumps], [str] of a list inside an
    f-string) are left uninterpreted. *)
Inductive output : Type :=
| Dumps (v : json)
    (* json.dumps(v, indent=2) *)
| NotFoundText (module_id : string) (module_ids : list json)
    (* f"Module '{module_id}' not found. Available modules: {module_ids}." *)
| Plain (s : string).

Section Tools.

Variable net : network.

Definition uap_discover (base_url : string) (module_id : option string)
  : M output :=
  if negb (PyStr.truthy base_url) then
    raise (ValueError "base_url is required")
  else
    let base_url := PyStr.rstrip "/" base_url in
    root_resp <- client_get net (base_url +:+ "/.well-known/uap") ;;
    raise_for_status root_resp ;;;
    root_doc <- resp_json root_resp ;;
    match given module_id with
    | None => ret (Dumps root_doc)
    | Some module_id =>
        modules <- lift (py_get_default root_doc "modules" (JArr [])) ;;
        items <- lift (py_iter modules) ;;
        module <- lift (first_module module_id items) ;;
        match found module with
        | None =>
            module_ids <- lift (module_ids_of items) ;;
            ret (NotFoundText module_id module_ids)
        | Some module =>
            href <- lift (py_subscript module "href") ;;
            module_resp <- client_get_value net href ;;
            raise_for_status module_resp ;;;
            module_doc <- resp_json module_resp ;;
            ret (Dumps (JObj [("uap", root_doc); ("module", module_doc)]))
        end
    end.

(** [method.upper().strip()] *)
Definition normalize_method (method : string) : string :=
  PyStr.strip (PyStr.upper method).

Definition uap_http (method url : string)
    (json_body params : option json) : M output :=
  if negb (PyStr.truthy method) || negb (PyStr.truthy url) then
    raise (ValueError "method and url are required")
  else
    let method := normalize_method method in
    resp <- client_request net (mk_request method url json_body params) ;;
    raise_for_status resp ;;;
    let content_type := default EmptyString (content_type resp) in
    if PyStr.contains "application/json" content_type then
      v <- resp_json resp ;;
      ret (Dumps v)
    else ret (Plain (text resp)).

End Tools.

End Agent.

(** ** app/main.py *)

Module Room.
(** [class Room(BaseModel)] *)
Record t : Type := mk {
  id : string;
  room_type : string;
  price : Z;
  features : list string
}.
End Room.

Module BookingRequest.
(** [class BookingRequest(BaseModel)] *)
Record t : Type := mk {
  room_id : string;
  check_in : string;
  check_out : string;
  guest_name : string
}.
End BookingRequest.

Module Booking.
(** [class Booking(BaseModel)] *)
Record t : Type := mk {
  id : string;
  room_id : string;
  check_in : string;
  check_out : string;
  guest_name : string;
  status : string
}.

(** [booking.copy(update={"status": s})] *)
Definition copy_update_status (booking : t) (s : string) : t :=
  {| id := id booking;
     room_id := room_id booking;
     check_in := check_in booking;
     check_out := check_out booking;
     guest_name := guest_name booking;
     status := s |}.
End Booking.

Module App.

Definition ROOMS : list json :=
  [ JObj [ ("id", JStr "room-101");
           ("room_type", JStr "queen");
           ("price", JNum 129);
           ("features", JArr [JStr "wifi"; JStr "breakfast"]) ];
    JObj [ ("id", JStr "room-202");
           ("room_type", JStr "king");
           ("price", JNum 159);
           ("features", JArr [JStr "wifi"; JStr "ocean_view"]) ];
    JObj [ ("id", JStr "room-303");
           ("room_type", JStr "suite");
           ("price", JNum 219);
           ("features", JArr [JStr "wifi"; JStr "breakfast"; JStr "balcony"]) ] ].

(** What a handler gives back: its value, or the [HTTPException] it
    raised. *)
Inductive reply (A : Type) : Type :=
| Ok (a : A)
| HTTPException (status_code : Z) (detail : string).
Arguments Ok {A} a.
Arguments HTTPException {A} status_code detail.

Fixpoint str_items (items : list json) : option (list string) :=
  match items with
  | [] => Some []
  | JStr s :: rest =>
      match str_items rest with
      | Some ss => Some (s :: ss)
      | None => None
      end
  | _ => None
  end.

(** [Room] built from the items of the dict [room] as keyword
    arguments: the four fields are read from the dict and checked
    against their declared types; [None] stands for the validation
    error.  (The conversions pydantic would also accept, such as a
    numeric string for [price], do not occur in [ROOMS].) *)
Definition Room_of (room : json) : option Room.t :=
  match room with
  | JObj fields =>
      match Json.assoc "id" fields, Json.assoc "room_type" fields,
            Json.assoc "price" fields, Json.assoc "features" fields with
      | Some (JStr i), Some (JStr t), Some (JNum p), Some (JArr fs) =>
          match str_items fs with
          | Some ss => Some (Room.mk i t p ss)
          | None => None
          end
      | _, _, _, _ => None
      end
  | _ => None
  end.

(** The list comprehension building a [Room] from each of [rooms]. *)
Fixpoint Rooms_of (rooms : list json) : option (list Room.t) :=
  match rooms with
  | [] => Some []
  | room :: rest =>
      match Room_of room with
      | None => None
      | Some r =>
          match Rooms_of rest with
          | Some rs => Some (r :: rs)
          | None => None
          end
      end
  end.

(** [str(request.base_url).rstrip("/")] *)
Definition base_of (request_base_url : string) : string :=
  PyStr.rstrip "/" request_base_url.

(** [GET /.well-known/uap] *)
Definition uap_root (request_base_url : string) : json :=
  let base_url := base_of request_base_url in
  JObj [ ("name", JStr "Example Hotel");
         ("modules",
          JArr [ JObj [ ("id", JStr "booking");
                        ("description", JStr "Room availability and booking");
                        ("href", JStr (base_url +:+ "/.well-known/booking.json")) ] ]) ].

(** The action descriptors of the booking module. *)
Definition booking_actions (base_url : string) : list json :=
  [ JObj [ ("id", JStr "rooms.list");
           ("description", JStr "List all rooms");
           ("method", JStr "GET");
           ("href", JStr (base_url +:+ "/rooms")) ];
    JObj [ ("id", JStr "rooms.search");
           ("description", JStr "Search available rooms");
           ("method", JStr "GET");
           ("href", JStr (base_url +:+ "/rooms/search")) ];
    JObj [ ("id", JStr "booking.create");
           ("description", JStr "Create a booking");
           ("method", JStr "POST");
           ("href", JStr (base_url +:+ "/bookings"));
           ("confirm", JStr "user") ];
    JObj [ ("id", JStr "booking.cancel");
           ("description", JStr "Cancel a booking");
           ("method", JStr "POST");
           ("href", JStr (base_url +:+ "/bookings/{booking_id}/cancel"));
           ("confirm", JStr "user") ] ].

(** [GET /.well-known/booking.json] *)
Definition booking_module (request_base_url : string) : json :=
  let base_url := base_of request_base_url in
  JObj [ ("name", JStr "Booking");
         ("openapi", JStr (base_url +:+ "/openapi.json"));
         ("actions", JArr (booking_actions base_url)) ].

(** What FastAPI answers for a handler with declared parameter bounds:
    the value of the handler, or 422 when a bound fails, the handler
    then not being called. *)
Inductive checked (A : Type) : Type :=
| Handled (a : A)
| Unprocessable.
Arguments Handled {A} a.
Arguments Unprocessable {A}.

(** [guests: Optional[int] = Query(None, ge=1)] *)
Definition guests_ok (guests : option Z) : bool :=
  match guests with
  | None => true
  | Some g => 1 <=? g
  end.

(** [GET /rooms/search].  The three query parameters are optional;
    [check_in] and [check_out] are any strings, [guests] is bounded
    below by its declaration.  The body reads none of them. *)
Definition search_rooms (check_in check_out : option string)
    (guests : option Z) : checked (option (list Room.t)) :=
  if guests_ok guests then Handled (Rooms_of ROOMS) else Unprocessable.

(** [GET /rooms] *)
Definition list_rooms : option (list Room.t) :=
  Rooms_of ROOMS.

(** [next((room for room in ROOMS if room["id"] == room_id), None)];
    every entry of [ROOMS] has an ["id"]. *)
Fixpoint find_room (room_id : string) (rooms : list json) : option json :=
  match rooms with
  | [] => None
  | room :: rest =>
      match room with
      | JObj fields =>
          match Json.assoc "id" fields with
          | Some v =>
              if Json.eq_str v room_id then Some room
              else find_room room_id rest
          | None => find_room room_id rest
          end
      | _ => find_room room_id rest
      end
  end.

(** [POST /bookings], the store [BOOKINGS] passed in and out;
    [booking_id] is the fresh [str(uuid.uuid4())]. *)
Definition create_booking (booking_id : string) (payload : BookingRequest.t)
    (BOOKINGS : gmap string Booking.t)
  : gmap string Booking.t * reply Booking.t :=
  match find_room (BookingRequest.room_id payload) ROOMS with
  | None => (BOOKINGS, HTTPException 404 "Room not found")
  | Some _ =>
      let booking :=
        Booking.mk booking_id
          (BookingRequest.room_id payload)
          (BookingRequest.check_in payload)
          (BookingRequest.check_out payload)
          (BookingRequest.guest_name payload)
          "confirmed" in
      (<[booking_id := booking]> BOOKINGS, Ok booking)
  end.

(** [POST /bookings/{booking_id}/cancel], the store [BOOKINGS] passed in
    and out.  A stored [Booking] is a model instance, hence true in a
    condition: [not booking] holds only for a missing id. *)
Definition cancel_booking (booking_id : string)
    (BOOKINGS : gmap string Booking.t)
  : gmap string Booking.t * reply Booking.t :=
  match BOOKINGS !! booking_id with
  | None => (BOOKINGS, HTTPException 404 "Booking not found")
  | Some booking =>
      let updated := Booking.copy_update_status booking "canceled" in
      (<[booking_id := updated]> BOOKINGS, Ok updated)
  end.

End App.

(** ** Shapes of documents *)

Module Doc.

Definition is_dict (v : json) : bool :=
  match v with JObj _ => true | _ => false end.


(** The [id] of a module entry, [JNull] when it has none. *)
Definition id_of (v : json) : json :=
  match v with
  | JObj fields => default JNull (Json.assoc "id" fields)
  | _ => JNull
  end.

(** The entry carries the id [module_id]. *)
Definition has_id (module_id : string) (v : json) : bool :=
  Json.eq_str (id_of v) module_id.

(** The [modules] of a root document, the empty list when the key is
    missing. *)
Definition modules_of (fields : list (string * json)) : json :=
  default (JArr []) (Json.assoc "modules" fields).

End Doc.

(** ** Fixtures *)

Module Fixture.

Definition json_response (status : Z) (v : json) : response :=
  mk_response status (Some "application/json") EmptyString (Some v).

Definition text_response (status : Z) (body : string) : response :=
  mk_response status (Some "text/plain; charset=utf-8") body None.

(** A network that serves [pages] by exact URL, whatever the method,
    and is unreachable elsewhere. *)
Fixpoint serve (pages : list (string * response)) (url : string)
  : net_result :=
  match pages with
  | [] => Unreachable
  | (u, resp) :: rest =>
      if String.eqb u url then Answered resp else serve rest url
  end.

Definition site (pages : list (string * response)) : network :=
  fun _ r => serve pages (req_url r).

(** The root document of the scenario: one module, [booking]. *)
Definition root_with (id href : string) : json :=
  JObj [ ("name", JStr "X");
         ("modules", JArr [ JObj [ ("id", JStr id); ("href", JStr href) ] ]) ].

Definition module_doc : json :=
  JObj [ ("name", JStr "Booking"); ("actions", JArr []) ].

(** The body of a booking request and the booking it creates. *)
Definition booking_request : json :=
  JObj [ ("room_id", JStr "room-101");
         ("check_in", JStr "2024-01-01");
         ("check_out", JStr "2024-01-02");
         ("guest_name", JStr "A") ].

Definition booking_created : json :=
  JObj [ ("id", JStr "b-1");
         ("room_id", JStr "room-101");
         ("check_in", JStr "2024-01-01");
         ("check_out", JStr "2024-01-02");
         ("guest_name", JStr "A");
         ("status", JStr "confirmed") ].

Definition not_found : response :=
  json_response 404 (JObj [ ("detail", JStr "Booking not found") ]).

(** [http://svc] with an absolute module href. *)
Definition svc : network :=
  site [ ("http://svc/.well-known/uap",
          json_response 200 (root_with "booking" "http://svc/booking.json"));
         ("http://svc/booking.json", json_response 200 module_doc);
         ("http://svc/bookings", json_response 200 booking_created);
         ("http://svc/bookings/{booking_id}/cancel", not_found);
         ("http://svc/hello", text_response 200 "hello");
         ("http://svc/missing", text_response 404 "Not Found") ].

(** [http://svc] with a relative module href. *)
Definition svc_relative : network :=
  site [ ("http://svc/.well-known/uap",
          json_response 200 (root_with "booking" "/booking.json"));
         ("http://svc/booking.json", json_response 200 module_doc) ].

(** [http://svc] whose only module has the empty id. *)
Definition svc_empty_id : network :=
  site [ ("http://svc/.well-known/uap",
          json_response 200 (root_with "" "http://svc/booking.json"));
         ("http://svc/booking.json", json_response 200 module_doc) ].

(** The example provider at [http://localhost:8000], serving the two
    documents of [app/main.py]. *)
Definition hotel : network :=
  site [ ("http://localhost:8000/.well-known/uap",
          json_response 200 (App.uap_root "http://localhost:8000/"));
         ("http://localhost:8000/.well-known/booking.json",
          json_response 200 (App.booking_module "http://localhost:8000/")) ].

Definition booking_a : Booking.t :=
  Booking.mk "b-1" "room-101" "2024-01-01" "2024-01-02" "A" "confirmed".

Definition booking_b : Booking.t :=
  Booking.mk "b-2" "room-202" "2024-02-01" "2024-02-03" "B" "confirmed".

Definition two_bookings : gmap string Booking.t :=
  <["b-2" := booking_b]> (<["b-1" := booking_a]> ∅).

End Fixture.

(** ** agent/agent.py, the command line of [main] *)

Module AgentMain.

Definition DEFAULT_QUERY : string :=
  "Find available room types for next weekend.".

(** [" ".join(words)] *)
Fixpoint join_space (words : list string) : string :=
  match words with
  | [] => EmptyString
  | w :: rest =>
      match rest with
      | [] => w
      | _ => w +:+ " " +:+ join_space rest
      end
  end.

(** [" ".join(sys.argv[1:]).strip() or "Find available ..."], [argv]
    being [sys.argv]. *)
Definition user_query (argv : list string) : string :=
  let query := PyStr.strip (join_space (tail argv)) in
  if PyStr.truthy query then query else DEFAULT_QUERY.

End AgentMain.

(** ** Shapes of strings *)

Module Str.

(** Only white space, or nothing at all. *)
Fixpoint blank (s : string) : bool :=
  match s with
  | EmptyString => true
  | String c r => PyStr.is_space c && blank r
  end.

(** No lower-case ASCII letter. *)
Fixpoint no_lower (s : string) : bool :=
  match s with
  | EmptyString => true
  | String c r => negb (PyStr.is_lower c) && no_lower r
  end.

Definition first_char (s : string) : option ascii :=
  match s with
  | EmptyString => None
  | String c _ => Some c
  end.

(** Neither the first nor the last character is white space. *)
Definition trimmed (s : string) : Prop :=
  (forall c, first_char s = Some c -> PyStr.is_space c = false)
  /\ (forall c, PyStr.last_char s = Some c -> PyStr.is_space c = false).

End Str.

(** ** The booking store over a run of the service *)

Module Store.

(** The room id is the id of an entry of [ROOMS]. *)
Definition known_room (room_id : string) : bool :=
  existsb (fun room => Json.eq_str (Doc.id_of room) room_id) App.ROOMS.

(** A call of one of the two handlers that write [BOOKINGS]. *)
Inductive call : Type :=
| Create (booking_id : string) (payload : BookingRequest.t)
| Cancel (booking_id : string).

(** The store after a call, whatever the reply. *)
Definition handle (BOOKINGS : gmap string Booking.t) (c : call)
  : gmap string Booking.t :=
  match c with
  | Create booking_id payload =>
      fst (App.create_booking booking_id payload BOOKINGS)
  | Cancel booking_id => fst (App.cancel_booking booking_id BOOKINGS)
  end.

(** The store after the calls, handled one after the other. *)
Definition handle_all (calls : list call) (BOOKINGS : gmap string Booking.t)
  : gmap string Booking.t :=
  fold_left handle calls BOOKINGS.

(** What holds of the booking stored under [key]. *)
Definition booking_ok (key : string) (booking : Booking.t) : Prop :=
  Booking.id booking = key
  /\ known_room (Booking.room_id booking) = true
  /\ (Booking.status booking = "confirmed"
      \/ Booking.status booking = "canceled").

Definition store_ok (BOOKINGS : gmap string Booking.t) : Prop :=
  forall key booking, BOOKINGS !! key = Some booking -> booking_ok key booking.

End Store.

(** ** The two halves of [uap_discover] *)

Module Steps.

(** The well-known URL of a base URL. *)
Definition well_known (base_url : string) : string :=
  PyStr.rstrip "/" base_url +:+ "/.well-known/uap".

(** What [uap_discover] does once the root document is decoded: the
    lines from [if not module_id] to the end, as they stand in
    [Agent.uap_discover]. *)
Definition after_root (net : network) (root_doc : json)
    (module_id : option string) : M Agent.output :=
  match Agent.given module_id with
  | None => ret (Agent.Dumps root_doc)
  | Some module_id =>
     bind (lift (Agent.py_get_default root_doc "modules" (JArr [])))
       (fun modules =>
     bind (lift (Agent.py_iter modules)) (fun items =>
     bind (lift (Agent.first_module module_id items)) (fun module =>
       match Agent.found module with
       | None =>
         bind (lift (Agent.module_ids_of items)) (fun module_ids =>
           ret (Agent.NotFoundText module_id module_ids))
       | Some module =>
         bind (lift (Agent.py_subscript module "href")) (fun href =>
         bind (Agent.client_get_value net href) (fun module_resp =>
         bind (Agent.raise_for_status module_resp) (fun _ =>
         bind (Agent.resp_json module_resp) (fun module_doc =>
           ret (Agent.Dumps
                  (JObj [("uap", root_doc); ("module", module_doc)]))))))
       end)))
  end.

End Steps.

(** * Properties *)

(** ** Strings *)

Section StringFacts.

Variable p : ascii -> bool.

Lemma rstrip_by_last (s : string) (c : ascii) :
  PyStr.last_char (PyStr.rstrip_by p s) = Some c -> p c = false.
Proof.
  induction s as [|d r IH]; simpl; [discriminate|].
  destruct (PyStr.rstrip_by p r) as [|e r'] eqn:Hr.
  - destruct (p d) eqn:Hd; simpl; [discriminate|].
    intros [= <-]. exact Hd.
  - intros H. apply IH. exact H.
Qed.

End StringFacts.

Lemma mem_slash (c : ascii) :
  PyStr.mem_char c "/" = true -> c = "/"%char.
Proof.
  simpl. rewrite orb_false_r. intros H. apply Ascii.eqb_eq. exact H.
Qed.

(** What [rstrip("/")] removes is a run of slashes. *)
Lemma rstrip_slash_suffix (s : string) :
  exists n, s = PyStr.rstrip "/" s +:+ PyStr.replicate n "/".
Proof.
  unfold PyStr.rstrip.
  induction s as [|d r [n IH]]; [now exists 0%nat|].
  cbn [PyStr.rstrip_by].
  destruct (PyStr.rstrip_by _ r) as [|e r'] eqn:Hr.
  - change (r = PyStr.replicate n "/") in IH.
    destruct (PyStr.mem_char d "/") eqn:Hd.
    + apply mem_slash in Hd. subst d. exists (S n).
      change (String "/" r = String "/" (PyStr.replicate n "/")).
      congruence.
    + exists n.
      change (String d r = String d (PyStr.replicate n "/")).
      congruence.
  - exists n.
    change (String d r = String d (String e r' +:+ PyStr.replicate n "/")).
    congruence.
Qed.

(** What [rstrip("/")] leaves does not end with a slash. *)
Lemma rstrip_slash_last (s : string) :
  PyStr.last_char (PyStr.rstrip "/" s) <> Some "/"%char.
Proof.
  intros H. apply rstrip_by_last in H. discriminate H.
Qed.

Lemma truthy_nonempty (s : string) : s <> EmptyString -> PyStr.truthy s = true.
Proof. destruct s; [congruence|reflexivity]. Qed.

(** ** The example provider *)

(** C9, as the code has it.  Whatever [check_in] and [check_out] are,
    and for [guests] absent or at least 1, the room search gives the
    whole fixed list of rooms, in the order of [ROOMS] and field for
    field: the filters have no effect.  For [guests] below 1 the
    declared bound fails and the answer is 422. *)
Theorem search_rooms_ignores_filters
    (check_in check_out : option string) (guests : option Z) :
  (guests = None \/ (exists g, guests = Some g /\ 1 <= g) ->
   App.search_rooms check_in check_out guests
   = App.Handled
       (Some [ Room.mk "room-101" "queen" 129 ["wifi"; "breakfast"];
               Room.mk "room-202" "king" 159 ["wifi"; "ocean_view"];
               Room.mk "room-303" "suite" 219
                 ["wifi"; "breakfast"; "balcony"] ])
   /\ App.search_rooms check_in check_out guests
      = App.Handled App.list_rooms
   /\ App.search_rooms check_in check_out guests
      = App.search_rooms None None None)
  /\ (forall g, guests = Some g -> g < 1 ->
      App.search_rooms check_in check_out guests = App.Unprocessable).
Proof.
  unfold App.search_rooms. split.
  - intros Hvalid.
    assert (Hok : App.guests_ok guests = true).
    { destruct Hvalid as [-> | (g & -> & Hg)]; [reflexivity|].
      apply Z.leb_le. exact Hg. }
    rewrite Hok. repeat split.
  - intros g -> Hg. cbn [App.guests_ok].
    replace (1 <=? g) with false; [reflexivity|].
    symmetry. apply Z.leb_gt. exact Hg.
Qed.

Lemma search_rooms_ignores_filters_witness :
  App.search_rooms (Some "2024-01-01") (Some "2024-01-02") (Some 2)
  = App.Handled App.list_rooms
  /\ App.search_rooms None None (Some (-5)) = App.Unprocessable.
Proof.
  split.
  - apply (proj1 (search_rooms_ignores_filters
                    (Some "2024-01-01") (Some "2024-01-02") (Some 2))).
    right. exists 2. split; [reflexivity|lia].
  - apply (proj2 (search_rooms_ignores_filters None None (Some (-5))) (-5));
      [reflexivity|lia].
Defined.

(** C9 as stated fails for [guests = 0]: the bound declared for the
    parameter is not met, the handler is not called and no list of rooms
    is returned. *)
Lemma search_rooms_guests_zero :
  App.search_rooms None None (Some 0) = App.Unprocessable
  /\ (forall rooms, App.search_rooms None None (Some 0) <> App.Handled rooms).
Proof.
  split; [reflexivity|]. intros rooms. discriminate.
Qed.

(** C10.  Cancelling a stored booking puts under its id a copy whose
    [status] is ["canceled"] and whose other fields are those of the
    stored booking; every other entry of the store is left as it was. *)
Theorem cancel_booking_frame (booking_id : string)
    (BOOKINGS : gmap string Booking.t) (booking : Booking.t) :
  BOOKINGS !! booking_id = Some booking ->
  exists (updated : Booking.t) (BOOKINGS' : gmap string Booking.t),
    App.cancel_booking booking_id BOOKINGS = (BOOKINGS', App.Ok updated)
    /\ BOOKINGS' !! booking_id = Some updated
    /\ Booking.status updated = "canceled"
    /\ Booking.id updated = Booking.id booking
    /\ Booking.room_id updated = Booking.room_id booking
    /\ Booking.check_in updated = Booking.check_in booking
    /\ Booking.check_out updated = Booking.check_out booking
    /\ Booking.guest_name updated = Booking.guest_name booking
    /\ (forall other : string, other <> booking_id ->
        BOOKINGS' !! other = BOOKINGS !! other).
Proof.
  intros Hget. unfold App.cancel_booking. rewrite Hget.
  eexists _, _. split; [reflexivity|].
  split; [apply lookup_insert_eq|].
  repeat (split; [reflexivity|]).
  intros other Hne. apply lookup_insert_ne. congruence.
Qed.

Lemma cancel_booking_frame_witness :
  exists (updated : Booking.t) (BOOKINGS' : gmap string Booking.t),
    App.cancel_booking "b-1" Fixture.two_bookings = (BOOKINGS', App.Ok updated)
    /\ BOOKINGS' !! "b-1" = Some updated
    /\ Booking.status updated = "canceled"
    /\ Booking.id updated = "b-1"
    /\ Booking.room_id updated = "room-101"
    /\ Booking.check_in updated = "2024-01-01"
    /\ Booking.check_out updated = "2024-01-02"
    /\ Booking.guest_name updated = "A"
    /\ (forall other : string, other <> "b-1" ->
        BOOKINGS' !! other = Fixture.two_bookings !! other).
Proof.
  apply (cancel_booking_frame "b-1" Fixture.two_bookings Fixture.booking_a).
  vm_compute. reflexivity.
Defined.

(** The other booking of the store is still confirmed after the
    cancellation. *)
Example cancel_leaves_other :
  fst (App.cancel_booking "b-1" Fixture.two_bookings) !! "b-2"
  = Some Fixture.booking_b.
Proof. vm_compute. reflexivity. Qed.

(** A missing id is answered 404 and the store is not touched. *)
Lemma cancel_booking_missing (booking_id : string)
    (BOOKINGS : gmap string Booking.t) :
  BOOKINGS !! booking_id = None ->
  App.cancel_booking booking_id BOOKINGS
  = (BOOKINGS, App.HTTPException 404 "Booking not found").
Proof. intros H. unfold App.cancel_booking. now rewrite H. Qed.

(** ** The request log *)

Lemma grows_ret {A} (a : A) : grows (ret a).
Proof. intros log. exists []. simpl. now rewrite app_nil_r. Qed.

Lemma grows_raise {A} (e : exn) : grows (@raise A e).
Proof. intros log. exists []. simpl. now rewrite app_nil_r. Qed.

Lemma grows_lift {A} (o : outcome A) : grows (lift o).
Proof. intros log. exists []. simpl. now rewrite app_nil_r. Qed.

Lemma grows_bind {A B} (m : M A) (k : A -> M B) :
  grows m -> (forall a, grows (k a)) -> grows (bind m k).
Proof.
  intros Hm Hk log. unfold bind.
  destruct (Hm log) as [s1 H1].
  destruct (m log) as [log' [a|e]]; simpl in H1; subst log'.
  - destruct (Hk a (log ++ s1)) as [s2 H2].
    exists (s1 ++ s2). now rewrite H2, app_assoc.
  - now exists s1.
Qed.

Lemma grows_client_request (net : network) (r : request) :
  grows (Agent.client_request net r).
Proof.
  intros log. exists [r]. unfold Agent.client_request.
  now destruct (net log r).
Qed.

Lemma grows_client_get_value (net : network) (v : json) :
  grows (Agent.client_get_value net v).
Proof.
  destruct v; simpl; try apply grows_raise.
  apply grows_client_request.
Qed.

Lemma grows_raise_for_status (resp : response) :
  grows (Agent.raise_for_status resp).
Proof.
  unfold Agent.raise_for_status.
  destruct (Agent.is_success resp); [apply grows_ret | apply grows_raise].
Qed.

Lemma grows_resp_json (resp : response) : grows (Agent.resp_json resp).
Proof.
  unfold Agent.resp_json.
  destruct (json_body resp); [apply grows_ret | apply grows_raise].
Qed.

Create HintDb log_grows.
#[local] Hint Resolve grows_ret grows_raise grows_lift grows_client_request
  grows_client_get_value grows_raise_for_status grows_resp_json : log_grows.

Ltac grows_tac :=
  repeat first
    [ progress auto with log_grows
    | apply grows_bind; [|intros ?]
    | match goal with
      | |- grows (if ?b then _ else _) => destruct b
      | |- grows (match ?o with Some _ => _ | None => _ end) => destruct o
      end ].

(** The first request of a computation that starts by sending [r]. *)
Lemma first_request {A} (net : network) (r : request) (k : response -> M A) :
  (forall resp, grows (k resp)) ->
  exists rest, requests (bind (Agent.client_request net r) k) = r :: rest.
Proof.
  intros Hk. unfold requests, run, bind, Agent.client_request.
  destruct (net [] r) as [resp|]; simpl.
  - destruct (Hk resp [r]) as [s Hs]. exists s. exact Hs.
  - now exists [].
Qed.

(** ** The discovery client *)

(** C7.  For a non-empty base URL the first request of [uap_discover] is
    a GET of the base URL without its trailing slashes followed by
    [/.well-known/uap]: what is cut off is a run of slashes, and what is
    left does not end with a slash. *)
Theorem uap_discover_well_known_url (net : network)
    (base_url : string) (module_id : option string) :
  base_url <> EmptyString ->
  (exists rest,
     requests (Agent.uap_discover net base_url module_id)
     = Agent.GET (PyStr.rstrip "/" base_url +:+ "/.well-known/uap") :: rest)
  /\ PyStr.last_char (PyStr.rstrip "/" base_url) <> Some "/"%char
  /\ (exists n, base_url = PyStr.rstrip "/" base_url +:+ PyStr.replicate n "/").
Proof.
  intros Hne. split; [|split].
  - unfold Agent.uap_discover. rewrite (truthy_nonempty _ Hne). simpl negb.
    cbv iota. unfold Agent.client_get. apply first_request.
    intros resp. grows_tac.
  - apply rstrip_slash_last.
  - apply rstrip_slash_suffix.
Qed.

Lemma uap_discover_well_known_url_witness :
  (exists rest,
     requests (Agent.uap_discover Fixture.svc "http://svc/" (Some "booking"))
     = Agent.GET "http://svc/.well-known/uap" :: rest)
  /\ PyStr.last_char "http://svc" <> Some "/"%char
  /\ (exists n, "http://svc/" = "http://svc" +:+ PyStr.replicate n "/").
Proof.
  apply (uap_discover_well_known_url Fixture.svc "http://svc/" (Some "booking")).
  discriminate.
Defined.

(** Several trailing slashes are all removed. *)
Example uap_discover_two_slashes :
  requests (Agent.uap_discover Fixture.svc "http://svc//" None)
  = [Agent.GET "http://svc/.well-known/uap"].
Proof. reflexivity. Qed.

Lemma first_module_none (module_id : string) (modules : list json) :
  forallb Doc.is_dict modules = true ->
  existsb (Doc.has_id module_id) modules = false ->
  Agent.first_module module_id modules = Return None.
Proof.
  induction modules as [|md rest IH]; simpl; [reflexivity|].
  intros [Hd Hr]%andb_prop [Hi He]%orb_false_elim.
  destruct md; try discriminate Hd.
  unfold Doc.has_id, Doc.id_of in Hi. simpl.
  destruct (Json.assoc "id" fields) as [v|]; simpl in *;
    [rewrite Hi|]; now apply IH.
Qed.

Lemma first_module_found (module_id : string) (before after : list json)
    (mfields : list (string * json)) :
  forallb Doc.is_dict before = true ->
  existsb (Doc.has_id module_id) before = false ->
  Json.assoc "id" mfields = Some (JStr module_id) ->
  Agent.first_module module_id (before ++ JObj mfields :: after)
  = Return (Some (JObj mfields)).
Proof.
  intros Hd He Hid.
  induction before as [|md rest IH]; simpl.
  - rewrite Hid. simpl. now rewrite String.eqb_refl.
  - simpl in Hd, He.
    apply andb_prop in Hd as [Hd Hr]. apply orb_false_elim in He as [Hi He].
    destruct md; try discriminate Hd.
    unfold Doc.has_id, Doc.id_of in Hi. simpl.
    destruct (Json.assoc "id" fields) as [v|]; simpl in *;
      [rewrite Hi|]; now apply IH.
Qed.

Lemma module_ids_of_dicts (modules : list json) :
  forallb Doc.is_dict modules = true ->
  Agent.module_ids_of modules = Return (map Doc.id_of modules).
Proof.
  induction modules as [|md rest IH]; simpl; [reflexivity|].
  intros [Hd Hr]%andb_prop.
  destruct md; try discriminate Hd. simpl.
  rewrite (IH Hr). now destruct (Json.assoc "id" fields).
Qed.

(** The root document is fetched and decoded; what follows is decided by
    [module_id]. *)
Lemma uap_discover_after_root (net : network) (base_url : string)
    (module_id : option string) (root_resp : response) (root_doc : json) :
  base_url <> EmptyString ->
  net [] (Agent.GET (PyStr.rstrip "/" base_url +:+ "/.well-known/uap"))
  = Answered root_resp ->
  Agent.is_success root_resp = true ->
  json_body root_resp = Some root_doc ->
  run (Agent.uap_discover net base_url module_id)
  = match Agent.given module_id with
    | None => ret (Agent.Dumps root_doc)
    | Some module_id =>
       bind (lift (Agent.py_get_default root_doc "modules" (JArr [])))
         (fun modules =>
       bind (lift (Agent.py_iter modules)) (fun items =>
       bind (lift (Agent.first_module module_id items)) (fun module =>
         match Agent.found module with
         | None =>
           bind (lift (Agent.module_ids_of items)) (fun module_ids =>
             ret (Agent.NotFoundText module_id module_ids))
         | Some module =>
           bind (lift (Agent.py_subscript module "href")) (fun href =>
           bind (Agent.client_get_value net href) (fun module_resp =>
           bind (Agent.raise_for_status module_resp) (fun _ =>
           bind (Agent.resp_json module_resp) (fun module_doc =>
             ret (Agent.Dumps
                    (JObj [("uap", root_doc); ("module", module_doc)]))))))
         end)))
    end
      [Agent.GET (PyStr.rstrip "/" base_url +:+ "/.well-known/uap")].
Proof.
  intros Hne Hnet Hok Hjson.
  unfold run, Agent.uap_discover. rewrite (truthy_nonempty _ Hne).
  cbv beta iota zeta delta [negb].
  unfold bind at 1. unfold Agent.client_get, Agent.client_request.
  rewrite Hnet. cbn [app].
  unfold bind at 1. unfold Agent.raise_for_status. rewrite Hok.
  unfold ret at 1.
  unfold bind at 1. unfold Agent.resp_json. rewrite Hjson.
  reflexivity.
Qed.

(** C3, as the code has it.  For a non-empty module id that no entry of
    the root document's module list carries, [uap_discover] sends the one
    request for the root document and returns (it does not raise) the
    not-found text built from the requested id and from the ids of all the
    entries, in their order. *)
Theorem uap_discover_module_not_found (net : network)
    (base_url module_id : string) (root_resp : response)
    (fields : list (string * json)) (modules : list json) :
  base_url <> EmptyString ->
  module_id <> EmptyString ->
  net [] (Agent.GET (PyStr.rstrip "/" base_url +:+ "/.well-known/uap"))
  = Answered root_resp ->
  Agent.is_success root_resp = true ->
  json_body root_resp = Some (JObj fields) ->
  Doc.modules_of fields = JArr modules ->
  forallb Doc.is_dict modules = true ->
  existsb (Doc.has_id module_id) modules = false ->
  run (Agent.uap_discover net base_url (Some module_id))
  = ([Agent.GET (PyStr.rstrip "/" base_url +:+ "/.well-known/uap")],
     Return (Agent.NotFoundText module_id (map Doc.id_of modules))).
Proof.
  intros Hb Hm Hnet Hok Hjson Hmods Hdicts Habsent.
  rewrite (uap_discover_after_root net base_url _ root_resp _ Hb Hnet Hok Hjson).
  unfold Agent.given. rewrite (truthy_nonempty _ Hm). cbv beta iota.
  unfold Doc.modules_of in Hmods.
  unfold Agent.py_get_default, bind, lift.
  destruct (Json.assoc "modules" fields) as [v|]; simpl in Hmods;
    [subst v | injection Hmods as <-];
    cbn [Agent.py_iter];
    rewrite (first_module_none _ _ Hdicts Habsent);
    cbn [Agent.found];
    now rewrite (module_ids_of_dicts _ Hdicts).
Qed.

Lemma uap_discover_module_not_found_witness :
  run (Agent.uap_discover Fixture.svc "http://svc/" (Some "payments"))
  = ([Agent.GET "http://svc/.well-known/uap"],
     Return (Agent.NotFoundText "payments" [JStr "booking"])).
Proof.
  apply (uap_discover_module_not_found Fixture.svc "http://svc/" "payments"
           (Fixture.json_response 200
              (Fixture.root_with "booking" "http://svc/booking.json"))
           [ ("name", JStr "X");
             ("modules",
              JArr [ JObj [ ("id", JStr "booking");
                            ("href", JStr "http://svc/booking.json") ] ]) ]
           [ JObj [ ("id", JStr "booking");
                    ("href", JStr "http://svc/booking.json") ] ]);
    try reflexivity; discriminate.
Defined.

(** C3 as stated fails for the empty module id: it is absent from the
    module list of the root document, yet [uap_discover] takes it for no
    module id and returns the root document, not the not-found text. *)
Lemma uap_discover_empty_id_no_not_found :
  existsb (Doc.has_id "")
    [ JObj [ ("id", JStr "booking"); ("href", JStr "http://svc/booking.json") ] ]
  = false
  /\ run (Agent.uap_discover Fixture.svc "http://svc" (Some ""))
     = ([Agent.GET "http://svc/.well-known/uap"],
        Return (Agent.Dumps
                  (Fixture.root_with "booking" "http://svc/booking.json")))
  /\ (forall module_ids,
        result (Agent.uap_discover Fixture.svc "http://svc" (Some ""))
        <> Return (Agent.NotFoundText "" module_ids)).
Proof.
  split; [reflexivity|]. split; [reflexivity|].
  intros module_ids. discriminate.
Qed.

(** C2, as the code has it.  When the root document's module list has
    an entry with the requested non-empty id, [uap_discover] requests the
    [href] of the first such entry exactly as it is written there, and,
    that request answered with a JSON body, returns the root document
    and the module document together. *)
Theorem uap_discover_module_found (net : network)
    (base_url module_id : string) (root_resp : response)
    (fields : list (string * json)) (before after : list json)
    (mfields : list (string * json)) (href : string)
    (module_resp : response) (module_doc : json) :
  base_url <> EmptyString ->
  module_id <> EmptyString ->
  net [] (Agent.GET (PyStr.rstrip "/" base_url +:+ "/.well-known/uap"))
  = Answered root_resp ->
  Agent.is_success root_resp = true ->
  json_body root_resp = Some (JObj fields) ->
  Doc.modules_of fields = JArr (before ++ JObj mfields :: after) ->
  forallb Doc.is_dict before = true ->
  existsb (Doc.has_id module_id) before = false ->
  Json.assoc "id" mfields = Some (JStr module_id) ->
  Json.assoc "href" mfields = Some (JStr href) ->
  net [Agent.GET (PyStr.rstrip "/" base_url +:+ "/.well-known/uap")]
    (Agent.GET href) = Answered module_resp ->
  Agent.is_success module_resp = true ->
  json_body module_resp = Some module_doc ->
  run (Agent.uap_discover net base_url (Some module_id))
  = ([Agent.GET (PyStr.rstrip "/" base_url +:+ "/.well-known/uap");
      Agent.GET href],
     Return (Agent.Dumps
               (JObj [("uap", JObj fields); ("module", module_doc)]))).
Proof.
  intros Hb Hm Hnet Hok Hjson Hmods Hdicts Habsent Hid Hhref Hnet2 Hok2 Hjson2.
  rewrite (uap_discover_after_root net base_url _ root_resp _ Hb Hnet Hok Hjson).
  unfold Agent.given. rewrite (truthy_nonempty _ Hm). cbv beta iota.
  assert (Htruthy : Json.truthy (JObj mfields) = true).
  { destruct mfields; [discriminate Hid|reflexivity]. }
  unfold Doc.modules_of in Hmods.
  unfold Agent.py_get_default, bind, lift.
  destruct (Json.assoc "modules" fields) as [v|]; simpl in Hmods;
    [subst v | now destruct before].
  cbn [Agent.py_iter].
  rewrite (first_module_found _ _ _ _ Hdicts Habsent Hid).
  cbn [Agent.found]. rewrite Htruthy.
  cbn [Agent.py_subscript]. rewrite Hhref.
  cbn [Agent.client_get_value].
  unfold Agent.client_get, Agent.client_request. rewrite Hnet2. cbn [app].
  unfold Agent.raise_for_status. rewrite Hok2. unfold ret at 1.
  unfold Agent.resp_json. now rewrite Hjson2.
Qed.

Lemma uap_discover_module_found_witness :
  run (Agent.uap_discover Fixture.svc "http://svc/" (Some "booking"))
  = ([Agent.GET "http://svc/.well-known/uap";
      Agent.GET "http://svc/booking.json"],
     Return (Agent.Dumps
               (JObj [("uap", Fixture.root_with "booking" "http://svc/booking.json");
                      ("module", Fixture.module_doc)]))).
Proof.
  apply (uap_discover_module_found Fixture.svc "http://svc/" "booking"
           (Fixture.json_response 200
              (Fixture.root_with "booking" "http://svc/booking.json"))
           [ ("name", JStr "X");
             ("modules",
              JArr [ JObj [ ("id", JStr "booking");
                            ("href", JStr "http://svc/booking.json") ] ]) ]
           [] []
           [ ("id", JStr "booking"); ("href", JStr "http://svc/booking.json") ]
           "http://svc/booking.json"
           (Fixture.json_response 200 Fixture.module_doc)
           Fixture.module_doc);
    try reflexivity; discriminate.
Defined.

(** The agent against the example provider: the provider writes its
    hrefs as absolute URLs, and the module is fetched from there. *)
Example uap_discover_hotel_booking :
  run (Agent.uap_discover Fixture.hotel "http://localhost:8000" (Some "booking"))
  = ([Agent.GET "http://localhost:8000/.well-known/uap";
      Agent.GET "http://localhost:8000/.well-known/booking.json"],
     Return (Agent.Dumps
               (JObj [("uap", App.uap_root "http://localhost:8000/");
                      ("module", App.booking_module "http://localhost:8000/")]))).
Proof. reflexivity. Qed.

(** C2 as stated fails.  A relative [href] is not resolved against the
    base URL: the module request carries [/booking.json] as written, the
    resolved URL is never requested, and no pair of documents comes back.
    And a module whose id is the empty string is never fetched: the empty
    id is taken for no module id. *)
Lemma uap_discover_relative_href_not_resolved :
  run (Agent.uap_discover Fixture.svc_relative "http://svc" (Some "booking"))
  = ([Agent.GET "http://svc/.well-known/uap"; Agent.GET "/booking.json"],
     Raise TransportError)
  /\ ~ In (Agent.GET "http://svc/booking.json")
         (requests
            (Agent.uap_discover Fixture.svc_relative "http://svc"
               (Some "booking")))
  /\ (forall v,
        result (Agent.uap_discover Fixture.svc_relative "http://svc"
                  (Some "booking"))
        <> Return (Agent.Dumps v))
  /\ run (Agent.uap_discover Fixture.svc_empty_id "http://svc" (Some ""))
     = ([Agent.GET "http://svc/.well-known/uap"],
        Return (Agent.Dumps (Fixture.root_with "" "http://svc/booking.json"))).
Proof.
  split; [reflexivity|]. split.
  - intros [H|[H|[]]]; discriminate H.
  - split; [intros v; discriminate | reflexivity].
Qed.

(** ** The action invoker *)

Lemma upper_char_space (c : ascii) :
  PyStr.is_space (PyStr.upper_char c) = PyStr.is_space c.
Proof.
  destruct c as [[] [] [] [] [] [] [] []]; reflexivity.
Qed.

Lemma lstrip_upper (s : string) :
  PyStr.lstrip_by PyStr.is_space (PyStr.upper s)
  = PyStr.upper (PyStr.lstrip_by PyStr.is_space s).
Proof.
  induction s as [|c r IH]; simpl; [reflexivity|].
  rewrite upper_char_space. now destruct (PyStr.is_space c).
Qed.

Lemma rstrip_upper (s : string) :
  PyStr.rstrip_by PyStr.is_space (PyStr.upper s)
  = PyStr.upper (PyStr.rstrip_by PyStr.is_space s).
Proof.
  induction s as [|c r IH]; simpl; [reflexivity|].
  rewrite IH, upper_char_space.
  destruct (PyStr.rstrip_by PyStr.is_space r); simpl; [|reflexivity].
  now destruct (PyStr.is_space c).
Qed.

(** Upper-casing and trimming commute. *)
Lemma normalize_method_strip_first (method : string) :
  Agent.normalize_method method = PyStr.upper (PyStr.strip method).
Proof.
  unfold Agent.normalize_method, PyStr.strip.
  now rewrite rstrip_upper, lstrip_upper.
Qed.

(** Methods that agree up to letter case, or up to surrounding white
    space, are dispatched as the same method. *)
Lemma normalize_method_insensitive (m1 m2 : string) :
  PyStr.upper m1 = PyStr.upper m2 \/ PyStr.strip m1 = PyStr.strip m2 ->
  Agent.normalize_method m1 = Agent.normalize_method m2.
Proof.
  intros [H|H].
  - unfold Agent.normalize_method. now rewrite H.
  - rewrite !normalize_method_strip_first. now rewrite H.
Qed.

(** What a call of [uap_http] with a method and a url does, by the
    answer of the network to its one request. *)
Lemma uap_http_run (net : network) (method url : string)
    (body params : option json) :
  method <> EmptyString ->
  url <> EmptyString ->
  run (Agent.uap_http net method url body params)
  = let r := mk_request (Agent.normalize_method method) url body params in
    ([r],
     match net [] r with
     | Unreachable => Raise TransportError
     | Answered resp =>
         if Agent.is_success resp then
           if PyStr.contains "application/json"
                (default EmptyString (content_type resp))
           then match json_body resp with
                | Some v => Return (Agent.Dumps v)
                | None => Raise JSONDecodeError
                end
           else Return (Agent.Plain (text resp))
         else Raise (HTTPStatusError resp)
     end).
Proof.
  intros Hm Hu. unfold run, Agent.uap_http.
  rewrite (truthy_nonempty _ Hm), (truthy_nonempty _ Hu).
  cbv beta iota zeta delta [negb orb].
  unfold bind at 1. unfold Agent.client_request.
  destruct (net [] _) as [resp|]; cbn [app]; [|reflexivity].
  unfold bind at 1. unfold Agent.raise_for_status.
  destruct (Agent.is_success resp); [|reflexivity].
  unfold ret at 1.
  destruct (PyStr.contains _ _); [|reflexivity].
  unfold bind, Agent.resp_json.
  now destruct (json_body resp).
Qed.

(** C4, as the code has it.  [uap_http] raises its [ValueError] before
    any request when the method or the url is empty; with both given it
    sends exactly one request, carrying the url as it was passed, so that
    nothing is sent exactly when one of the two is empty. *)
Theorem uap_http_invalid_argument (net : network) (method url : string)
    (body params : option json) :
  (method = EmptyString \/ url = EmptyString ->
   run (Agent.uap_http net method url body params)
   = ([], Raise (ValueError "method and url are required")))
  /\ (method <> EmptyString -> url <> EmptyString ->
      requests (Agent.uap_http net method url body params)
      = [mk_request (Agent.normalize_method method) url body params])
  /\ (requests (Agent.uap_http net method url body params) = []
      <-> method = EmptyString \/ url = EmptyString).
Proof.
  assert (Hempty : method = EmptyString \/ url = EmptyString ->
            run (Agent.uap_http net method url body params)
            = ([], Raise (ValueError "method and url are required"))).
  { intros [-> | ->]; [reflexivity|]. now destruct method. }
  assert (Hsent : method <> EmptyString -> url <> EmptyString ->
            requests (Agent.uap_http net method url body params)
            = [mk_request (Agent.normalize_method method) url body params]).
  { intros Hm Hu. unfold requests.
    now rewrite (uap_http_run net method url body params Hm Hu). }
  split; [exact Hempty|]. split; [exact Hsent|].
  split.
  - intros Hnone.
    destruct method as [|c m]; [now left|].
    destruct url as [|d u]; [now right|].
    rewrite Hsent in Hnone by discriminate. discriminate Hnone.
  - intros H. unfold requests. now rewrite (Hempty H).
Qed.

Lemma uap_http_invalid_argument_witness :
  run (Agent.uap_http Fixture.svc "POST" "" None None)
  = ([], Raise (ValueError "method and url are required"))
  /\ requests
       (Agent.uap_http Fixture.svc "post" "http://svc/bookings"
          (Some Fixture.booking_request) None)
     = [mk_request "POST" "http://svc/bookings"
          (Some Fixture.booking_request) None].
Proof.
  split.
  - apply (proj1 (uap_http_invalid_argument Fixture.svc "POST" "" None None)).
    right. reflexivity.
  - apply (proj1 (proj2 (uap_http_invalid_argument Fixture.svc "post"
                           "http://svc/bookings"
                           (Some Fixture.booking_request) None)));
      discriminate.
Defined.

(** C4 as stated fails: a url that still holds the placeholder
    [{booking_id}] is not rejected.  The request is sent with the url as
    it is, and the call ends with the 404 of the service, not with a
    [ValueError]. *)
Lemma uap_http_placeholder_is_sent :
  PyStr.contains "{booking_id}" "http://svc/bookings/{booking_id}/cancel" = true
  /\ run (Agent.uap_http Fixture.svc "POST"
            "http://svc/bookings/{booking_id}/cancel" None None)
     = ([mk_request "POST" "http://svc/bookings/{booking_id}/cancel" None None],
        Raise (HTTPStatusError Fixture.not_found))
  /\ requests (Agent.uap_http Fixture.svc "POST"
                 "http://svc/bookings/{booking_id}/cancel" None None) <> []
  /\ (forall msg,
        result (Agent.uap_http Fixture.svc "POST"
                  "http://svc/bookings/{booking_id}/cancel" None None)
        <> Raise (ValueError msg)).
Proof.
  split; [reflexivity|]. split; [reflexivity|].
  split; [discriminate|]. intros msg. discriminate.
Qed.

(** C5.  When the request is answered with a success status, the result
    follows the content type: if it contains [application/json], the
    decoded JSON body is returned (as [json.dumps] renders it), otherwise
    the raw text of the response is returned. *)
Theorem uap_http_success_result (net : network) (method url : string)
    (body params : option json) (resp : response) :
  method <> EmptyString ->
  url <> EmptyString ->
  net [] (mk_request (Agent.normalize_method method) url body params)
  = Answered resp ->
  Agent.is_success resp = true ->
  if PyStr.contains "application/json"
       (default EmptyString (content_type resp))
  then forall v, json_body resp = Some v ->
       result (Agent.uap_http net method url body params)
       = Return (Agent.Dumps v)
  else result (Agent.uap_http net method url body params)
       = Return (Agent.Plain (text resp)).
Proof.
  intros Hm Hu Hnet Hok. unfold result.
  rewrite (uap_http_run net method url body params Hm Hu).
  cbn [snd]. rewrite Hnet, Hok.
  destruct (PyStr.contains _ _); [|reflexivity].
  intros v Hv. now rewrite Hv.
Qed.

Lemma uap_http_success_result_witness :
  result (Agent.uap_http Fixture.svc "POST" "http://svc/bookings"
            (Some Fixture.booking_request) None)
  = Return (Agent.Dumps Fixture.booking_created)
  /\ result (Agent.uap_http Fixture.svc "GET" "http://svc/hello" None None)
     = Return (Agent.Plain "hello").
Proof.
  split.
  - apply (uap_http_success_result Fixture.svc "POST" "http://svc/bookings"
             (Some Fixture.booking_request) None
             (Fixture.json_response 200 Fixture.booking_created));
      try reflexivity; discriminate.
  - apply (uap_http_success_result Fixture.svc "GET" "http://svc/hello"
             None None (Fixture.text_response 200 "hello"));
      try reflexivity; discriminate.
Defined.

(** A JSON content type over a body that does not decode is a failure,
    not a text result. *)
Example uap_http_json_undecodable :
  result
    (Agent.uap_http
       (fun _ _ => Answered (mk_response 200 (Some "application/json") "oops" None))
       "GET" "http://svc/x" None None)
  = Raise JSONDecodeError.
Proof. reflexivity. Qed.

(** C6.  When the request is answered with a 4xx or 5xx status,
    [uap_http] raises [HTTPStatusError], which carries the response and so
    its status; the one request was sent and nothing is returned. *)
Theorem uap_http_error_status (net : network) (method url : string)
    (body params : option json) (resp : response) :
  method <> EmptyString ->
  url <> EmptyString ->
  net [] (mk_request (Agent.normalize_method method) url body params)
  = Answered resp ->
  400 <= status_code resp <= 599 ->
  run (Agent.uap_http net method url body params)
  = ([mk_request (Agent.normalize_method method) url body params],
     Raise (HTTPStatusError resp)).
Proof.
  intros Hm Hu Hnet Hst.
  rewrite (uap_http_run net method url body params Hm Hu).
  cbv zeta. rewrite Hnet.
  unfold Agent.is_success.
  replace (status_code resp <=? 299) with false by (symmetry; apply Z.leb_gt; lia).
  now rewrite andb_false_r.
Qed.

Lemma uap_http_error_status_witness :
  run (Agent.uap_http Fixture.svc "GET" "http://svc/missing" None None)
  = ([mk_request "GET" "http://svc/missing" None None],
     Raise (HTTPStatusError (Fixture.text_response 404 "Not Found"))).
Proof.
  apply (uap_http_error_status Fixture.svc "GET" "http://svc/missing" None None
           (Fixture.text_response 404 "Not Found"));
    try reflexivity; try discriminate.
  simpl. lia.
Defined.

(** C8.  [uap_http] with ["get"] and with ["GET"] are the same call; more
    generally two non-empty methods with the same upper-cased, trimmed
    form give the same requests and the same result, and that form is the
    method of the request sent. *)
Theorem uap_http_method_normalized (net : network) (url : string)
    (body params : option json) :
  run (Agent.uap_http net "get" url body params)
  = run (Agent.uap_http net "GET" url body params)
  /\ (forall m1 m2 : string,
        m1 <> EmptyString -> m2 <> EmptyString ->
        PyStr.strip (PyStr.upper m1) = PyStr.strip (PyStr.upper m2) ->
        run (Agent.uap_http net m1 url body params)
        = run (Agent.uap_http net m2 url body params))
  /\ (forall m : string,
        m <> EmptyString -> url <> EmptyString ->
        requests (Agent.uap_http net m url body params)
        = [mk_request (PyStr.strip (PyStr.upper m)) url body params]).
Proof.
  assert (Heq : forall m1 m2 : string,
            m1 <> EmptyString -> m2 <> EmptyString ->
            PyStr.strip (PyStr.upper m1) = PyStr.strip (PyStr.upper m2) ->
            run (Agent.uap_http net m1 url body params)
            = run (Agent.uap_http net m2 url body params)).
  { intros m1 m2 H1 H2 Hn.
    destruct url as [|c u].
    - unfold run, Agent.uap_http.
      rewrite (truthy_nonempty _ H1), (truthy_nonempty _ H2). reflexivity.
    - rewrite !uap_http_run by (assumption || discriminate).
      unfold Agent.normalize_method. now rewrite Hn. }
  split; [|split].
  - apply Heq; [discriminate | discriminate | reflexivity].
  - exact Heq.
  - intros m Hm Hu. unfold requests.
    now rewrite (uap_http_run net m url body params Hm Hu).
Qed.

Lemma uap_http_method_normalized_witness :
  run (Agent.uap_http Fixture.svc " Get " "http://svc/hello" None None)
  = run (Agent.uap_http Fixture.svc "GET" "http://svc/hello" None None)
  /\ requests (Agent.uap_http Fixture.svc "get" "http://svc/hello" None None)
     = [mk_request "GET" "http://svc/hello" None None].
Proof.
  split.
  - apply (proj1 (proj2 (uap_http_method_normalized Fixture.svc
                           "http://svc/hello" None None)));
      [discriminate | discriminate | reflexivity].
  - apply (proj2 (proj2 (uap_http_method_normalized Fixture.svc
                           "http://svc/hello" None None)) "get");
      discriminate.
Defined.

(** ** The confirm flag *)





(** * Further properties of the example provider *)

(** The room lookup of [create_booking] and the test [known_room] agree
    on every list of rooms. *)
Lemma find_room_existsb (room_id : string) (rooms : list json) :
  (existsb (fun room => Json.eq_str (Doc.id_of room) room_id) rooms = true ->
   exists room, App.find_room room_id rooms = Some room)
  /\ (existsb (fun room => Json.eq_str (Doc.id_of room) room_id) rooms = false ->
      App.find_room room_id rooms = None).
Proof.
  induction rooms as [|room rest [IHt IHf]]; cbn [existsb App.find_room].
  - split; [discriminate|reflexivity].
  - destruct room; cbn [Doc.id_of Json.eq_str orb]; try (now split).
    destruct (Json.assoc "id" fields) as [v|];
      cbn [default from_option id Json.eq_str orb]; [|now split].
    destruct (Json.eq_str v room_id); cbn [orb]; [|now split].
    split; [eauto|discriminate].
Qed.

Lemma find_room_known (room_id : string) :
  (Store.known_room room_id = true ->
   exists room, App.find_room room_id App.ROOMS = Some room)
  /\ (Store.known_room room_id = false ->
      App.find_room room_id App.ROOMS = None).
Proof. apply find_room_existsb. Qed.

Lemma id_of_first (v : json) (rest : list (string * json)) :
  Doc.id_of (JObj (("id", v) :: rest)) = v.
Proof. reflexivity. Qed.

(** The ids [create_booking] accepts are the three room ids, nothing
    else. *)
Lemma known_room_ids (room_id : string) :
  Store.known_room room_id = true
  <-> room_id = "room-101" \/ room_id = "room-202" \/ room_id = "room-303".
Proof.
  unfold Store.known_room, App.ROOMS. cbn [existsb].
  rewrite !id_of_first. cbn [Json.eq_str].
  rewrite orb_false_r, !orb_true_iff, !String.eqb_eq.
  intuition congruence.
Qed.

(** X1.  [create_booking] answers 404 "Room not found" exactly when the
    room id of the request is none of the ids of [ROOMS], and then the
    store is left as it was. *)
Theorem create_booking_unknown_room (booking_id : string)
    (payload : BookingRequest.t) (BOOKINGS : gmap string Booking.t) :
  (BookingRequest.room_id payload <> "room-101"
   /\ BookingRequest.room_id payload <> "room-202"
   /\ BookingRequest.room_id payload <> "room-303")
  <-> App.create_booking booking_id payload BOOKINGS
      = (BOOKINGS, App.HTTPException 404 "Room not found").
Proof.
  unfold App.create_booking.
  destruct (Store.known_room (BookingRequest.room_id payload)) eqn:Hk.
  - destruct (proj1 (find_room_known _) Hk) as [room ->].
    apply known_room_ids in Hk. split; [tauto|intros H; inversion H].
  - rewrite (proj2 (find_room_known _) Hk).
    split; [reflexivity|]. intros _.
    assert (Hn : ~ (Store.known_room (BookingRequest.room_id payload) = true))
      by (rewrite Hk; discriminate).
    rewrite known_room_ids in Hn. tauto.
Qed.

Lemma create_booking_unknown_room_witness :
  App.create_booking "b-3"
    (BookingRequest.mk "room-999" "2024-03-01" "2024-03-02" "C")
    Fixture.two_bookings
  = (Fixture.two_bookings, App.HTTPException 404 "Room not found").
Proof.
  apply (proj1 (create_booking_unknown_room "b-3"
                  (BookingRequest.mk "room-999" "2024-03-01" "2024-03-02" "C")
                  Fixture.two_bookings)).
  repeat split; discriminate.
Defined.

(** X2.  For a room of [ROOMS], [create_booking] replies with a booking
    that has the fresh id, the four fields of the request and the status
    ["confirmed"]; that booking is what the store then holds under the
    id, and every other entry of the store is as before. *)
Theorem create_booking_stored (booking_id : string)
    (payload : BookingRequest.t) (BOOKINGS : gmap string Booking.t) :
  Store.known_room (BookingRequest.room_id payload) = true ->
  let booking :=
    Booking.mk booking_id (BookingRequest.room_id payload)
      (BookingRequest.check_in payload) (BookingRequest.check_out payload)
      (BookingRequest.guest_name payload) "confirmed" in
  snd (App.create_booking booking_id payload BOOKINGS) = App.Ok booking
  /\ fst (App.create_booking booking_id payload BOOKINGS) !! booking_id
     = Some booking
  /\ (forall other : string, other <> booking_id ->
      fst (App.create_booking booking_id payload BOOKINGS) !! other
      = BOOKINGS !! other).
Proof.
  intros Hk booking. unfold App.create_booking.
  destruct (proj1 (find_room_known _) Hk) as [room ->]. cbn [fst snd].
  split; [reflexivity|]. split; [apply lookup_insert_eq|].
  intros other Hne. apply lookup_insert_ne. congruence.
Qed.

Lemma create_booking_stored_witness :
  snd (App.create_booking "b-3"
         (BookingRequest.mk "room-303" "2024-03-01" "2024-03-02" "C")
         Fixture.two_bookings)
  = App.Ok (Booking.mk "b-3" "room-303" "2024-03-01" "2024-03-02" "C" "confirmed")
  /\ fst (App.create_booking "b-3"
            (BookingRequest.mk "room-303" "2024-03-01" "2024-03-02" "C")
            Fixture.two_bookings) !! "b-3"
     = Some (Booking.mk "b-3" "room-303" "2024-03-01" "2024-03-02" "C" "confirmed")
  /\ (forall other : string, other <> "b-3" ->
      fst (App.create_booking "b-3"
             (BookingRequest.mk "room-303" "2024-03-01" "2024-03-02" "C")
             Fixture.two_bookings) !! other
      = Fixture.two_bookings !! other).
Proof.
  apply (create_booking_stored "b-3"
           (BookingRequest.mk "room-303" "2024-03-01" "2024-03-02" "C")
           Fixture.two_bookings).
  reflexivity.
Defined.

(** X3.  A booking that was just created can be cancelled under the id
    it was given: the reply is the booking of the request with the status
    ["canceled"], and that booking replaces the confirmed one in the
    store. *)
Theorem create_then_cancel (booking_id : string)
    (payload : BookingRequest.t) (BOOKINGS : gmap string Booking.t) :
  Store.known_room (BookingRequest.room_id payload) = true ->
  let canceled :=
    Booking.mk booking_id (BookingRequest.room_id payload)
      (BookingRequest.check_in payload) (BookingRequest.check_out payload)
      (BookingRequest.guest_name payload) "canceled" in
  App.cancel_booking booking_id
    (fst (App.create_booking booking_id payload BOOKINGS))
  = (<[booking_id := canceled]> BOOKINGS, App.Ok canceled).
Proof.
  intros Hk canceled. unfold App.create_booking.
  destruct (proj1 (find_room_known _) Hk) as [room ->]. cbn [fst].
  unfold App.cancel_booking. rewrite lookup_insert_eq.
  now rewrite insert_insert_eq.
Qed.

Lemma create_then_cancel_witness :
  App.cancel_booking "b-3"
    (fst (App.create_booking "b-3"
            (BookingRequest.mk "room-303" "2024-03-01" "2024-03-02" "C") ∅))
  = (<["b-3" := Booking.mk "b-3" "room-303" "2024-03-01" "2024-03-02" "C"
                  "canceled"]> ∅,
     App.Ok (Booking.mk "b-3" "room-303" "2024-03-01" "2024-03-02" "C"
               "canceled")).
Proof.
  apply (create_then_cancel "b-3"
           (BookingRequest.mk "room-303" "2024-03-01" "2024-03-02" "C") ∅).
  reflexivity.
Defined.

(** X4.  Cancelling is idempotent: a second [cancel_booking] of the same
    id, on the store the first one left, gives the same store and the
    same reply as the first (the canceled booking, or 404 both times). *)
Theorem cancel_booking_idempotent (booking_id : string)
    (BOOKINGS : gmap string Booking.t) :
  App.cancel_booking booking_id
    (fst (App.cancel_booking booking_id BOOKINGS))
  = App.cancel_booking booking_id BOOKINGS.
Proof.
  unfold App.cancel_booking.
  destruct (BOOKINGS !! booking_id) as [booking|] eqn:Hget; cbn [fst].
  - rewrite lookup_insert_eq. now rewrite insert_insert_eq.
  - now rewrite Hget.
Qed.

(** X5.  [cancel_booking] neither adds nor removes a booking: the ids of
    the store are the same after it as before.  It answers 404 exactly
    when the id is not in the store, and then the store is unchanged. *)
Theorem cancel_booking_same_ids (booking_id : string)
    (BOOKINGS : gmap string Booking.t) :
  dom (fst (App.cancel_booking booking_id BOOKINGS)) = dom BOOKINGS
  /\ (BOOKINGS !! booking_id = None
      <-> App.cancel_booking booking_id BOOKINGS
          = (BOOKINGS, App.HTTPException 404 "Booking not found")).
Proof.
  unfold App.cancel_booking.
  destruct (BOOKINGS !! booking_id) as [booking|] eqn:Hget; cbn [fst].
  - split; [apply dom_insert_lookup_L; eauto|].
    split; [discriminate|]. intros H. inversion H.
  - split; [reflexivity|]. split; reflexivity.
Qed.

Lemma handle_keeps_ok (BOOKINGS : gmap string Booking.t) (c : Store.call) :
  Store.store_ok BOOKINGS -> Store.store_ok (Store.handle BOOKINGS c).
Proof.
  intros Hok. destruct c as [booking_id payload | booking_id]; simpl.
  - unfold App.create_booking.
    destruct (Store.known_room (BookingRequest.room_id payload)) eqn:Hk.
    + destruct (proj1 (find_room_known _) Hk) as [room ->]. cbn [fst].
      intros key booking.
      destruct (decide (booking_id = key)) as [->|Hne].
      * rewrite lookup_insert_eq. intros [= <-].
        repeat split; [exact Hk | now left].
      * rewrite lookup_insert_ne by exact Hne. apply Hok.
    + rewrite (proj2 (find_room_known _) Hk). exact Hok.
  - unfold App.cancel_booking.
    destruct (BOOKINGS !! booking_id) as [stored|] eqn:Hget; cbn [fst];
      [|exact Hok].
    intros key booking.
    destruct (decide (booking_id = key)) as [->|Hne].
    + rewrite lookup_insert_eq. intros [= <-].
      destruct (Hok _ _ Hget) as (Hid & Hroom & _).
      repeat split; [exact Hid | exact Hroom | now right].
    + rewrite lookup_insert_ne by exact Hne. apply Hok.
Qed.

(** X6.  However the two writing handlers are called, starting from the
    empty store the service begins with, every booking in the store has
    its key as its id, a room of [ROOMS] as its room, and the status
    ["confirmed"] or ["canceled"]. *)
Theorem store_ok_reachable (calls : list Store.call) :
  Store.store_ok (Store.handle_all calls ∅).
Proof.
  unfold Store.handle_all.
  assert (Hgen : forall BOOKINGS, Store.store_ok BOOKINGS ->
                   Store.store_ok (fold_left Store.handle calls BOOKINGS)).
  { induction calls as [|c rest IH]; intros BOOKINGS Hok; simpl; [exact Hok|].
    apply IH. now apply handle_keeps_ok. }
  apply Hgen. intros key booking. rewrite lookup_empty. discriminate.
Qed.


(** * Further properties of the discovery client *)

(** [uap_discover] with a base URL, by the answer to its first request. *)
Lemma uap_discover_unfold (net : network) (base_url : string)
    (module_id : option string) :
  base_url <> EmptyString ->
  run (Agent.uap_discover net base_url module_id)
  = match net [] (Agent.GET (Steps.well_known base_url)) with
    | Unreachable =>
        ([Agent.GET (Steps.well_known base_url)], Raise TransportError)
    | Answered root_resp =>
        if Agent.is_success root_resp then
          match json_body root_resp with
          | Some root_doc =>
              Steps.after_root net root_doc module_id
                [Agent.GET (Steps.well_known base_url)]
          | None =>
              ([Agent.GET (Steps.well_known base_url)], Raise JSONDecodeError)
          end
        else
          ([Agent.GET (Steps.well_known base_url)],
           Raise (HTTPStatusError root_resp))
    end.
Proof.
  intros Hne. unfold run, Agent.uap_discover, Steps.well_known.
  rewrite (truthy_nonempty _ Hne). cbv beta iota zeta delta [negb].
  unfold bind at 1. unfold Agent.client_get, Agent.client_request.
  destruct (net [] _) as [root_resp|]; cbn [app]; [|reflexivity].
  unfold bind at 1. unfold Agent.raise_for_status.
  destruct (Agent.is_success root_resp); [|reflexivity].
  unfold ret at 1.
  unfold bind at 1. unfold Agent.resp_json.
  destruct (json_body root_resp); reflexivity.
Qed.

Lemma first_module_raises (module_id : string) (items : list json) (e : exn) :
  Agent.first_module module_id items = Raise e -> e = AttributeError.
Proof.
  induction items as [|md rest IH]; simpl; [discriminate|].
  destruct md; simpl; try (intros [= <-]; reflexivity).
  destruct (Json.assoc "id" fields) as [v|].
  - destruct (Json.eq_str v module_id); [discriminate|exact IH].
  - simpl. exact IH.
Qed.

Lemma module_ids_of_raises (items : list json) (e : exn) :
  Agent.module_ids_of items = Raise e -> e = AttributeError.
Proof.
  induction items as [|md rest IH]; simpl; [discriminate|].
  destruct md; simpl; try (intros [= <-]; reflexivity).
  destruct (Agent.module_ids_of rest) as [vs|e'].
  - destruct (Json.assoc "id" fields); discriminate.
  - destruct (Json.assoc "id" fields); intros [= <-]; now apply IH.
Qed.

(** Past the root document, [uap_discover] sends nothing or one GET, and
    does not end with a [ValueError] of the tools' own making. *)
Lemma after_root_log (net : network) (root_doc : json)
    (module_id : option string) (log : list request) :
  (fst (Steps.after_root net root_doc module_id log) = log
   \/ exists href,
        fst (Steps.after_root net root_doc module_id log)
        = log ++ [Agent.GET href])
  /\ (forall msg,
        snd (Steps.after_root net root_doc module_id log)
        <> Raise (ValueError msg)).
Proof.
  unfold Steps.after_root.
  destruct (Agent.given module_id) as [id|]; [|split; [now left|discriminate]].
  unfold bind, lift.
  destruct (Agent.py_get_default root_doc "modules" (JArr [])) as [modules|e] eqn:Hmods.
  2:{ split; [now left|]. intros msg. cbn [snd].
      destruct root_doc; simpl in Hmods; try (injection Hmods as <-; discriminate).
      destruct (Json.assoc "modules" fields); discriminate. }
  destruct (Agent.py_iter modules) as [items|e] eqn:Hiter.
  2:{ split; [now left|]. intros msg. cbn [snd].
      destruct modules; simpl in Hiter; try discriminate;
        injection Hiter as <-; discriminate. }
  destruct (Agent.first_module id items) as [module|e] eqn:Hfirst.
  2:{ split; [now left|]. intros msg. cbn [snd].
      apply first_module_raises in Hfirst. subst e. discriminate. }
  destruct (Agent.found module) as [md|].
  2:{ destruct (Agent.module_ids_of items) as [ids|e] eqn:Hids.
      - split; [now left|discriminate].
      - split; [now left|]. intros msg. cbn [snd].
        apply module_ids_of_raises in Hids. subst e. discriminate. }
  destruct (Agent.py_subscript md "href") as [href|e] eqn:Hhref.
  2:{ split; [now left|]. intros msg. cbn [snd].
      destruct md; simpl in Hhref; try (injection Hhref as <-; discriminate).
      destruct (Json.assoc "href" fields); [discriminate|].
      injection Hhref as <-. discriminate. }
  destruct href as [| | |url| |]; cbn [Agent.client_get_value];
    try (split; [now left|discriminate]).
  unfold Agent.client_get, Agent.client_request.
  destruct (net log (Agent.GET url)) as [module_resp|].
  2:{ split; [right; now exists url|discriminate]. }
  unfold Agent.raise_for_status.
  destruct (Agent.is_success module_resp).
  2:{ split; [right; now exists url|discriminate]. }
  unfold ret at 1. unfold Agent.resp_json.
  destruct (json_body module_resp);
    (split; [right; now exists url|discriminate]).
Qed.



(** A success answer that is not JSON ends [uap_discover] with the
    [JSONDecodeError] of [resp.json()], a [ValueError] by its class. *)
Example uap_discover_root_not_json :
  run (Agent.uap_discover
         (fun _ _ => Answered (Fixture.text_response 200 "<html>"))
         "http://svc" None)
  = ([Agent.GET "http://svc/.well-known/uap"], Raise JSONDecodeError)
  /\ is_ValueError JSONDecodeError = true.
Proof. split; reflexivity. Qed.

(** X8.  [uap_discover] sends at most two requests, both plain GETs (no
    body, no parameters): the first for the well-known URL, the second,
    when there is one, for one more URL.  Nothing is sent twice on
    failure. *)
Theorem uap_discover_requests (net : network) (base_url : string)
    (module_id : option string) :
  requests (Agent.uap_discover net base_url module_id) = []
  \/ requests (Agent.uap_discover net base_url module_id)
     = [Agent.GET (Steps.well_known base_url)]
  \/ exists href,
       requests (Agent.uap_discover net base_url module_id)
       = [Agent.GET (Steps.well_known base_url); Agent.GET href].
Proof.
  destruct base_url as [|c b] eqn:Hb; [now left|]. right. rewrite <- Hb.
  assert (Hne : base_url <> EmptyString) by (rewrite Hb; discriminate).
  unfold requests.
  rewrite (uap_discover_unfold net base_url module_id Hne).
  destruct (net [] _) as [root_resp|]; [|now left].
  destruct (Agent.is_success root_resp); [|now left].
  destruct (json_body root_resp) as [root_doc|]; [|now left].
  destruct (proj1 (after_root_log net root_doc module_id
                     [Agent.GET (Steps.well_known base_url)])) as [H|[href H]].
  - left. exact H.
  - right. exists href. exact H.
Qed.

(** X9.  Without a module id ([None] or the empty string) and with the
    root request answered by a success status and a JSON body,
    [uap_discover] returns that body as it was decoded, whatever its
    shape, after the one request: the root document is not validated. *)
Theorem uap_discover_root_only (net : network) (base_url : string)
    (module_id : option string) (root_resp : response) (root_doc : json) :
  base_url <> EmptyString ->
  module_id = None \/ module_id = Some EmptyString ->
  net [] (Agent.GET (Steps.well_known base_url)) = Answered root_resp ->
  Agent.is_success root_resp = true ->
  json_body root_resp = Some root_doc ->
  run (Agent.uap_discover net base_url module_id)
  = ([Agent.GET (Steps.well_known base_url)], Return (Agent.Dumps root_doc)).
Proof.
  intros Hne Hid Hnet Hok Hjson.
  rewrite (uap_discover_unfold net base_url module_id Hne), Hnet, Hok, Hjson.
  unfold Steps.after_root. now destruct Hid as [-> | ->].
Qed.

Lemma uap_discover_root_only_witness :
  run (Agent.uap_discover
         (fun _ _ => Answered (Fixture.json_response 200 (JArr [JNum 1])))
         "http://svc" None)
  = ([Agent.GET "http://svc/.well-known/uap"],
     Return (Agent.Dumps (JArr [JNum 1]))).
Proof.
  apply (uap_discover_root_only
           (fun _ _ => Answered (Fixture.json_response 200 (JArr [JNum 1])))
           "http://svc" None (Fixture.json_response 200 (JArr [JNum 1]))
           (JArr [JNum 1]));
    try reflexivity; [discriminate | now left].
Defined.

(** X10.  When the root request is answered with a 4xx or 5xx status,
    [uap_discover] raises [HTTPStatusError] carrying that response after
    the one request, with or without a module id: no module is looked up
    and nothing more is fetched. *)
Theorem uap_discover_root_status (net : network) (base_url : string)
    (module_id : option string) (root_resp : response) :
  base_url <> EmptyString ->
  net [] (Agent.GET (Steps.well_known base_url)) = Answered root_resp ->
  400 <= status_code root_resp <= 599 ->
  run (Agent.uap_discover net base_url module_id)
  = ([Agent.GET (Steps.well_known base_url)],
     Raise (HTTPStatusError root_resp)).
Proof.
  intros Hne Hnet Hst.
  rewrite (uap_discover_unfold net base_url module_id Hne), Hnet.
  replace (Agent.is_success root_resp) with false; [reflexivity|].
  unfold Agent.is_success. symmetry. apply andb_false_iff.
  right. apply Z.leb_gt. lia.
Qed.

Lemma uap_discover_root_status_witness :
  run (Agent.uap_discover
         (fun _ _ => Answered (Fixture.text_response 503 "down"))
         "http://svc" (Some "booking"))
  = ([Agent.GET "http://svc/.well-known/uap"],
     Raise (HTTPStatusError (Fixture.text_response 503 "down"))).
Proof.
  apply (uap_discover_root_status
           (fun _ _ => Answered (Fixture.text_response 503 "down"))
           "http://svc" (Some "booking") (Fixture.text_response 503 "down"));
    [discriminate | reflexivity | simpl; lia].
Defined.

(** The run of [uap_discover] for a module entry that is found. *)
Lemma uap_discover_at_module (net : network) (base_url module_id : string)
    (root_resp : response) (fields : list (string * json))
    (before after : list json) (mfields : list (string * json)) :
  base_url <> EmptyString ->
  module_id <> EmptyString ->
  net [] (Agent.GET (Steps.well_known base_url)) = Answered root_resp ->
  Agent.is_success root_resp = true ->
  json_body root_resp = Some (JObj fields) ->
  Doc.modules_of fields = JArr (before ++ JObj mfields :: after) ->
  forallb Doc.is_dict before = true ->
  existsb (Doc.has_id module_id) before = false ->
  Json.assoc "id" mfields = Some (JStr module_id) ->
  run (Agent.uap_discover net base_url (Some module_id))
  = bind (lift (Agent.py_subscript (JObj mfields) "href")) (fun href =>
    bind (Agent.client_get_value net href) (fun module_resp =>
    bind (Agent.raise_for_status module_resp) (fun _ =>
    bind (Agent.resp_json module_resp) (fun module_doc =>
      ret (Agent.Dumps
             (JObj [("uap", JObj fields); ("module", module_doc)]))))))
      [Agent.GET (Steps.well_known base_url)].
Proof.
  intros Hb Hm Hnet Hok Hjson Hmods Hdicts Habsent Hid.
  rewrite (uap_discover_unfold net base_url _ Hb), Hnet, Hok, Hjson.
  unfold Steps.after_root, Agent.given.
  rewrite (truthy_nonempty _ Hm). cbv beta iota.
  assert (Htruthy : Json.truthy (JObj mfields) = true).
  { destruct mfields; [discriminate Hid|reflexivity]. }
  unfold Doc.modules_of in Hmods.
  unfold Agent.py_get_default. unfold bind at 1. unfold lift at 1.
  destruct (Json.assoc "modules" fields) as [v|]; simpl in Hmods;
    [subst v | now destruct before].
  unfold bind at 1. unfold lift at 1. cbn [Agent.py_iter].
  unfold bind at 1. unfold lift at 1.
  rewrite (first_module_found _ _ _ _ Hdicts Habsent Hid).
  cbn [Agent.found]. now rewrite Htruthy.
Qed.

(** X11.  When the entry found for the module id has no [href],
    [uap_discover] raises [KeyError] for that key; only the root request
    was sent. *)
Theorem uap_discover_missing_href (net : network)
    (base_url module_id : string) (root_resp : response)
    (fields : list (string * json)) (before after : list json)
    (mfields : list (string * json)) :
  base_url <> EmptyString ->
  module_id <> EmptyString ->
  net [] (Agent.GET (Steps.well_known base_url)) = Answered root_resp ->
  Agent.is_success root_resp = true ->
  json_body root_resp = Some (JObj fields) ->
  Doc.modules_of fields = JArr (before ++ JObj mfields :: after) ->
  forallb Doc.is_dict before = true ->
  existsb (Doc.has_id module_id) before = false ->
  Json.assoc "id" mfields = Some (JStr module_id) ->
  Json.assoc "href" mfields = None ->
  run (Agent.uap_discover net base_url (Some module_id))
  = ([Agent.GET (Steps.well_known base_url)], Raise (KeyError "href")).
Proof.
  intros Hb Hm Hnet Hok Hjson Hmods Hdicts Habsent Hid Hhref.
  rewrite (uap_discover_at_module net base_url module_id root_resp fields
             before after mfields) by assumption.
  unfold bind, lift. cbn [Agent.py_subscript]. now rewrite Hhref.
Qed.

Lemma uap_discover_missing_href_witness :
  run (Agent.uap_discover
         (fun _ _ =>
            Answered
              (Fixture.json_response 200
                 (JObj [ ("modules", JArr [ JObj [ ("id", JStr "booking") ] ]) ])))
         "http://svc" (Some "booking"))
  = ([Agent.GET "http://svc/.well-known/uap"], Raise (KeyError "href")).
Proof.
  apply (uap_discover_missing_href
           (fun _ _ =>
              Answered
                (Fixture.json_response 200
                   (JObj [ ("modules", JArr [ JObj [ ("id", JStr "booking") ] ]) ])))
           "http://svc" "booking"
           (Fixture.json_response 200
              (JObj [ ("modules", JArr [ JObj [ ("id", JStr "booking") ] ]) ]))
           [ ("modules", JArr [ JObj [ ("id", JStr "booking") ] ]) ]
           [] [] [ ("id", JStr "booking") ]);
    try reflexivity; discriminate.
Defined.

(** X12.  When the module request is answered with a 4xx or 5xx status,
    [uap_discover] raises [HTTPStatusError] carrying the module response:
    the root document already fetched is not returned. *)
Theorem uap_discover_module_status (net : network)
    (base_url module_id : string) (root_resp : response)
    (fields : list (string * json)) (before after : list json)
    (mfields : list (string * json)) (href : string)
    (module_resp : response) :
  base_url <> EmptyString ->
  module_id <> EmptyString ->
  net [] (Agent.GET (Steps.well_known base_url)) = Answered root_resp ->
  Agent.is_success root_resp = true ->
  json_body root_resp = Some (JObj fields) ->
  Doc.modules_of fields = JArr (before ++ JObj mfields :: after) ->
  forallb Doc.is_dict before = true ->
  existsb (Doc.has_id module_id) before = false ->
  Json.assoc "id" mfields = Some (JStr module_id) ->
  Json.assoc "href" mfields = Some (JStr href) ->
  net [Agent.GET (Steps.well_known base_url)] (Agent.GET href)
  = Answered module_resp ->
  400 <= status_code module_resp <= 599 ->
  run (Agent.uap_discover net base_url (Some module_id))
  = ([Agent.GET (Steps.well_known base_url); Agent.GET href],
     Raise (HTTPStatusError module_resp)).
Proof.
  intros Hb Hm Hnet Hok Hjson Hmods Hdicts Habsent Hid Hhref Hnet2 Hst.
  rewrite (uap_discover_at_module net base_url module_id root_resp fields
             before after mfields) by assumption.
  unfold bind, lift. cbn [Agent.py_subscript]. rewrite Hhref.
  cbn [Agent.client_get_value].
  unfold Agent.client_get, Agent.client_request. rewrite Hnet2. cbn [app].
  unfold Agent.raise_for_status.
  replace (Agent.is_success module_resp) with false; [reflexivity|].
  unfold Agent.is_success. symmetry. apply andb_false_iff.
  right. apply Z.leb_gt. lia.
Qed.

Lemma uap_discover_module_status_witness :
  run (Agent.uap_discover
         (Fixture.site
            [ ("http://svc/.well-known/uap",
               Fixture.json_response 200
                 (Fixture.root_with "booking" "http://svc/gone.json"));
              ("http://svc/gone.json", Fixture.text_response 404 "Not Found") ])
         "http://svc" (Some "booking"))
  = ([Agent.GET "http://svc/.well-known/uap"; Agent.GET "http://svc/gone.json"],
     Raise (HTTPStatusError (Fixture.text_response 404 "Not Found"))).
Proof.
  apply (uap_discover_module_status
           (Fixture.site
              [ ("http://svc/.well-known/uap",
                 Fixture.json_response 200
                   (Fixture.root_with "booking" "http://svc/gone.json"));
                ("http://svc/gone.json", Fixture.text_response 404 "Not Found") ])
           "http://svc" "booking"
           (Fixture.json_response 200
              (Fixture.root_with "booking" "http://svc/gone.json"))
           [ ("name", JStr "X");
             ("modules",
              JArr [ JObj [ ("id", JStr "booking");
                            ("href", JStr "http://svc/gone.json") ] ]) ]
           [] [] [ ("id", JStr "booking"); ("href", JStr "http://svc/gone.json") ]
           "http://svc/gone.json" (Fixture.text_response 404 "Not Found"));
    try reflexivity; try discriminate.
  simpl. lia.
Defined.

(** X13.  With a module id given, a root document that is not a JSON
    object makes [uap_discover] raise [AttributeError], and a root object
    whose [modules] is [null], a boolean or a number makes it raise
    [TypeError]; either way only the root request was sent and no
    not-found text is produced. *)
Theorem uap_discover_malformed_root (net : network)
    (base_url module_id : string) (root_resp : response) (root_doc : json) :
  base_url <> EmptyString ->
  module_id <> EmptyString ->
  net [] (Agent.GET (Steps.well_known base_url)) = Answered root_resp ->
  Agent.is_success root_resp = true ->
  json_body root_resp = Some root_doc ->
  (Doc.is_dict root_doc = false ->
   run (Agent.uap_discover net base_url (Some module_id))
   = ([Agent.GET (Steps.well_known base_url)], Raise AttributeError))
  /\ (forall fields modules,
        root_doc = JObj fields ->
        Json.assoc "modules" fields = Some modules ->
        (modules = JNull \/ (exists b, modules = JBool b)
         \/ (exists n, modules = JNum n)) ->
        run (Agent.uap_discover net base_url (Some module_id))
        = ([Agent.GET (Steps.well_known base_url)], Raise TypeError)).
Proof.
  intros Hb Hm Hnet Hok Hjson.
  rewrite (uap_discover_unfold net base_url _ Hb), Hnet, Hok, Hjson.
  unfold Steps.after_root, Agent.given.
  rewrite (truthy_nonempty _ Hm). cbv beta iota.
  split.
  - intros Hshape. destruct root_doc; try discriminate Hshape; reflexivity.
  - intros fields modules -> Hmods Hkind.
    unfold bind at 1. unfold lift at 1. cbn [Agent.py_get_default].
    rewrite Hmods.
    destruct Hkind as [-> | [[b ->] | [n ->]]]; reflexivity.
Qed.

Lemma uap_discover_malformed_root_witness :
  run (Agent.uap_discover
         (fun _ _ => Answered (Fixture.json_response 200 (JArr [])))
         "http://svc" (Some "booking"))
  = ([Agent.GET "http://svc/.well-known/uap"], Raise AttributeError).
Proof.
  apply (proj1 (uap_discover_malformed_root
                  (fun _ _ => Answered (Fixture.json_response 200 (JArr [])))
                  "http://svc" "booking" (Fixture.json_response 200 (JArr []))
                  (JArr [])
                  ltac:(discriminate) ltac:(discriminate)
                  eq_refl eq_refl eq_refl)).
  reflexivity.
Defined.

Lemma rstrip_by_snoc (p : ascii -> bool) (s : string) (c : ascii) :
  p c = true ->
  PyStr.rstrip_by p (s +:+ String c EmptyString) = PyStr.rstrip_by p s.
Proof.
  intros Hc. induction s as [|d r IH].
  - change (PyStr.rstrip_by p (String c EmptyString) = EmptyString).
    cbn [PyStr.rstrip_by]. now rewrite Hc.
  - change (String d r +:+ String c EmptyString)
      with (String d (r +:+ String c EmptyString)).
    cbn [PyStr.rstrip_by]. now rewrite IH.
Qed.

Lemma rstrip_slash_snoc (s : string) :
  PyStr.rstrip "/" (s +:+ "/") = PyStr.rstrip "/" s.
Proof. unfold PyStr.rstrip. now apply rstrip_by_snoc. Qed.

(** X14.  A trailing slash on a non-empty base URL changes nothing:
    [uap_discover] sends the same requests and ends the same way with and
    without it. *)
Theorem uap_discover_trailing_slash (net : network) (base_url : string)
    (module_id : option string) :
  base_url <> EmptyString ->
  run (Agent.uap_discover net (base_url +:+ "/") module_id)
  = run (Agent.uap_discover net base_url module_id).
Proof.
  intros Hne.
  assert (Hne' : base_url +:+ "/" <> EmptyString)
    by (destruct base_url; [congruence|discriminate]).
  rewrite (uap_discover_unfold net _ module_id Hne').
  rewrite (uap_discover_unfold net _ module_id Hne).
  unfold Steps.well_known. now rewrite rstrip_slash_snoc.
Qed.

Lemma uap_discover_trailing_slash_witness :
  run (Agent.uap_discover Fixture.svc "http://svc/" (Some "booking"))
  = run (Agent.uap_discover Fixture.svc "http://svc" (Some "booking")).
Proof.
  apply (uap_discover_trailing_slash Fixture.svc "http://svc" (Some "booking")).
  discriminate.
Defined.

(** The slash makes the difference for the empty base URL only: the
    lone slash is a base URL, the empty string is refused. *)
Example uap_discover_lone_slash :
  requests (Agent.uap_discover Fixture.svc "/" None)
  = [Agent.GET "/.well-known/uap"]
  /\ requests (Agent.uap_discover Fixture.svc "" None) = [].
Proof. split; reflexivity. Qed.

(** * The agent against the example provider *)

(** X15.  The documents of the example provider do not depend on a
    trailing slash of the request's base URL. *)
Theorem provider_documents_trailing_slash (request_base_url : string) :
  App.uap_root (request_base_url +:+ "/") = App.uap_root request_base_url
  /\ App.booking_module (request_base_url +:+ "/")
     = App.booking_module request_base_url
  /\ PyStr.last_char (App.base_of request_base_url) <> Some "/"%char.
Proof.
  unfold App.uap_root, App.booking_module, App.base_of.
  rewrite rstrip_slash_snoc.
  split; [reflexivity|]. split; [reflexivity|]. apply rstrip_slash_last.
Qed.

Lemma has_id_booking (other : string) (fields : list (string * json)) :
  other <> "booking" ->
  Doc.has_id other (JObj (("id", JStr "booking") :: fields)) = false.
Proof.
  intros Hne. unfold Doc.has_id. rewrite id_of_first. cbn [Json.eq_str].
  apply String.eqb_neq. congruence.
Qed.

(** X16.  The agent finds what the provider publishes.  With the
    provider's root document served at the well-known URL and its booking
    document served at the href the root document names, [uap_discover]
    for the module ["booking"] fetches that href and returns the two
    documents; for any other non-empty module id it returns the
    not-found text listing ["booking"] and fetches nothing more. *)
Theorem provider_discoverable (net : network)
    (base_url request_base_url : string) (root_resp module_resp : response) :
  base_url <> EmptyString ->
  net [] (Agent.GET (Steps.well_known base_url)) = Answered root_resp ->
  Agent.is_success root_resp = true ->
  json_body root_resp = Some (App.uap_root request_base_url) ->
  net [Agent.GET (Steps.well_known base_url)]
    (Agent.GET (App.base_of request_base_url +:+ "/.well-known/booking.json"))
  = Answered module_resp ->
  Agent.is_success module_resp = true ->
  json_body module_resp = Some (App.booking_module request_base_url) ->
  run (Agent.uap_discover net base_url (Some "booking"))
  = ([Agent.GET (Steps.well_known base_url);
      Agent.GET (App.base_of request_base_url +:+ "/.well-known/booking.json")],
     Return (Agent.Dumps
               (JObj [("uap", App.uap_root request_base_url);
                      ("module", App.booking_module request_base_url)])))
  /\ (forall other : string,
        other <> EmptyString -> other <> "booking" ->
        run (Agent.uap_discover net base_url (Some other))
        = ([Agent.GET (Steps.well_known base_url)],
           Return (Agent.NotFoundText other [JStr "booking"]))).
Proof.
  intros Hb Hnet Hok Hjson Hnet2 Hok2 Hjson2.
  split.
  - rewrite (uap_discover_at_module net base_url "booking" root_resp
               [ ("name", JStr "Example Hotel");
                 ("modules",
                  JArr [ JObj [ ("id", JStr "booking");
                                ("description", JStr "Room availability and booking");
                                ("href",
                                 JStr (App.base_of request_base_url
                                       +:+ "/.well-known/booking.json")) ] ]) ]
               [] []
               [ ("id", JStr "booking");
                 ("description", JStr "Room availability and booking");
                 ("href",
                  JStr (App.base_of request_base_url
                        +:+ "/.well-known/booking.json")) ]);
      try reflexivity; try assumption; try discriminate.
    unfold bind, lift.
    change (Agent.py_subscript _ "href")
      with (@Return json (JStr (App.base_of request_base_url
                                +:+ "/.well-known/booking.json"))).
    cbn [Agent.client_get_value].
    unfold Agent.client_get, Agent.client_request. rewrite Hnet2. cbn [app].
    unfold Agent.raise_for_status. rewrite Hok2. unfold ret at 1.
    unfold Agent.resp_json. now rewrite Hjson2.
  - intros other Ho Hne.
    rewrite (uap_discover_unfold net base_url _ Hb), Hnet, Hok, Hjson.
    unfold Steps.after_root, Agent.given.
    rewrite (truthy_nonempty _ Ho). cbv beta iota.
    unfold App.uap_root.
    change (Agent.py_get_default _ "modules" (JArr []))
      with (@Return json
              (JArr [ JObj [ ("id", JStr "booking");
                             ("description", JStr "Room availability and booking");
                             ("href",
                              JStr (App.base_of request_base_url
                                    +:+ "/.well-known/booking.json")) ] ])).
    unfold bind, lift. cbn [Agent.py_iter].
    rewrite first_module_none;
      [ | reflexivity | cbn [existsb]; now rewrite has_id_booking ].
    cbn [Agent.found].
    rewrite module_ids_of_dicts by reflexivity.
    cbn [map]. now rewrite id_of_first.
Qed.

Lemma provider_discoverable_witness :
  run (Agent.uap_discover Fixture.hotel "http://localhost:8000/" (Some "booking"))
  = ([Agent.GET "http://localhost:8000/.well-known/uap";
      Agent.GET "http://localhost:8000/.well-known/booking.json"],
     Return (Agent.Dumps
               (JObj [("uap", App.uap_root "http://localhost:8000/");
                      ("module", App.booking_module "http://localhost:8000/")])))
  /\ run (Agent.uap_discover Fixture.hotel "http://localhost:8000/" (Some "rooms"))
     = ([Agent.GET "http://localhost:8000/.well-known/uap"],
        Return (Agent.NotFoundText "rooms" [JStr "booking"])).
Proof.
  pose proof (provider_discoverable Fixture.hotel
                "http://localhost:8000/" "http://localhost:8000/"
                (Fixture.json_response 200 (App.uap_root "http://localhost:8000/"))
                (Fixture.json_response 200
                   (App.booking_module "http://localhost:8000/"))
                ltac:(discriminate) eq_refl eq_refl eq_refl eq_refl eq_refl
                eq_refl) as [Hfound Hother].
  split; [exact Hfound|].
  apply Hother; discriminate.
Defined.

(** * Further properties of the action invoker *)

Lemma upper_char_not_lower (c : ascii) :
  PyStr.is_lower (PyStr.upper_char c) = false.
Proof.
  destruct c as [[] [] [] [] [] [] [] []]; reflexivity.
Qed.

Lemma no_lower_upper (s : string) : Str.no_lower (PyStr.upper s) = true.
Proof.
  induction s as [|c r IH]; simpl; [reflexivity|].
  now rewrite upper_char_not_lower, IH.
Qed.

Lemma upper_no_lower (s : string) :
  Str.no_lower s = true -> PyStr.upper s = s.
Proof.
  induction s as [|c r IH]; simpl; [reflexivity|].
  intros [Hc Hr]%andb_prop. rewrite (IH Hr).
  unfold PyStr.upper_char. apply negb_true_iff in Hc. now rewrite Hc.
Qed.

Lemma blank_upper (s : string) : Str.blank (PyStr.upper s) = Str.blank s.
Proof.
  induction s as [|c r IH]; simpl; [reflexivity|].
  now rewrite upper_char_space, IH.
Qed.

Lemma blank_app (s t : string) :
  Str.blank (s +:+ t) = Str.blank s && Str.blank t.
Proof.
  induction s as [|c r IH]; [reflexivity|].
  change (String c r +:+ t) with (String c (r +:+ t)).
  cbn [Str.blank]. now rewrite IH, andb_assoc.
Qed.

Section StripFacts.

Variable p : ascii -> bool.

Lemma lstrip_by_first (s : string) (c : ascii) :
  Str.first_char (PyStr.lstrip_by p s) = Some c -> p c = false.
Proof.
  induction s as [|d r IH]; simpl; [discriminate|].
  destruct (p d) eqn:Hd; [exact IH|]. simpl. now intros [= <-].
Qed.

Lemma lstrip_by_last (s : string) (c : ascii) :
  PyStr.last_char (PyStr.lstrip_by p s) = Some c ->
  PyStr.last_char s = Some c.
Proof.
  induction s as [|d r IH]; simpl; [discriminate|].
  destruct (p d); [|exact (fun H => H)].
  intros H. specialize (IH H). destruct r; [discriminate IH|exact IH].
Qed.

Lemma lstrip_by_fix (s : string) :
  (forall c, Str.first_char s = Some c -> p c = false) ->
  PyStr.lstrip_by p s = s.
Proof.
  destruct s as [|d r]; [reflexivity|]. intros H. simpl.
  now rewrite (H d eq_refl).
Qed.

Lemma rstrip_by_fix (s : string) :
  (forall c, PyStr.last_char s = Some c -> p c = false) ->
  PyStr.rstrip_by p s = s.
Proof.
  induction s as [|d r IH]; [reflexivity|]. intros H.
  cbn [PyStr.rstrip_by]. destruct r as [|e r'].
  - cbn [PyStr.rstrip_by]. now rewrite (H d eq_refl).
  - rewrite IH; [reflexivity|]. intros c Hc. apply H. exact Hc.
Qed.

End StripFacts.

Lemma no_lower_lstrip (p : ascii -> bool) (s : string) :
  Str.no_lower s = true -> Str.no_lower (PyStr.lstrip_by p s) = true.
Proof.
  induction s as [|d r IH]; simpl; [reflexivity|].
  intros H. destruct (p d); [|exact H].
  apply andb_prop in H as [_ Hr]. now apply IH.
Qed.

Lemma no_lower_rstrip (p : ascii -> bool) (s : string) :
  Str.no_lower s = true -> Str.no_lower (PyStr.rstrip_by p s) = true.
Proof.
  induction s as [|d r IH]; [reflexivity|].
  intros [Hd Hr]%andb_prop. cbn [PyStr.rstrip_by]. specialize (IH Hr).
  destruct (PyStr.rstrip_by p r) as [|e r'].
  - destruct (p d); [reflexivity|]. simpl. now rewrite Hd.
  - cbn [Str.no_lower] in IH |- *. now rewrite Hd, IH.
Qed.

Lemma strip_trimmed (s : string) : Str.trimmed (PyStr.strip s).
Proof.
  unfold PyStr.strip. split; intros c H.
  - now apply lstrip_by_first in H.
  - apply lstrip_by_last in H. now apply rstrip_by_last in H.
Qed.

Lemma strip_fix (s : string) : Str.trimmed s -> PyStr.strip s = s.
Proof.
  intros [Hf Hl]. unfold PyStr.strip.
  rewrite (rstrip_by_fix _ _ Hl). now apply lstrip_by_fix.
Qed.

Lemma rstrip_blank (s : string) :
  Str.blank s = true -> PyStr.rstrip_by PyStr.is_space s = EmptyString.
Proof.
  induction s as [|d r IH]; [reflexivity|].
  intros [Hd Hr]%andb_prop. cbn [PyStr.rstrip_by].
  now rewrite (IH Hr), Hd.
Qed.

Lemma strip_blank (s : string) :
  Str.blank s = true -> PyStr.strip s = EmptyString.
Proof.
  intros H. unfold PyStr.strip. now rewrite (rstrip_blank s H).
Qed.

(** X17.  The method that is dispatched has no lower-case ASCII letter
    and neither starts nor ends with white space, and normalising it
    again gives it back. *)
Theorem normalize_method_normal (method : string) :
  Str.no_lower (Agent.normalize_method method) = true
  /\ Str.trimmed (Agent.normalize_method method)
  /\ Agent.normalize_method (Agent.normalize_method method)
     = Agent.normalize_method method.
Proof.
  assert (Hl : Str.no_lower (Agent.normalize_method method) = true).
  { unfold Agent.normalize_method, PyStr.strip.
    apply no_lower_lstrip, no_lower_rstrip, no_lower_upper. }
  assert (Ht : Str.trimmed (Agent.normalize_method method))
    by apply strip_trimmed.
  split; [exact Hl|]. split; [exact Ht|].
  unfold Agent.normalize_method at 1.
  rewrite (upper_no_lower _ Hl). now apply strip_fix.
Qed.

(** X18.  The emptiness check of [uap_http] comes before the trimming: a
    method of white space only is not refused, and the request is sent
    with the empty method. *)
Theorem uap_http_blank_method (net : network) (method url : string)
    (body params : option json) :
  method <> EmptyString ->
  url <> EmptyString ->
  Str.blank method = true ->
  requests (Agent.uap_http net method url body params)
  = [mk_request EmptyString url body params].
Proof.
  intros Hm Hu Hb. unfold requests.
  rewrite (uap_http_run net method url body params Hm Hu). cbn [fst].
  unfold Agent.normalize_method. rewrite strip_blank; [reflexivity|].
  now rewrite blank_upper.
Qed.

Lemma uap_http_blank_method_witness :
  requests (Agent.uap_http Fixture.svc "  " "http://svc/hello" None None)
  = [mk_request "" "http://svc/hello" None None].
Proof.
  apply (uap_http_blank_method Fixture.svc "  " "http://svc/hello" None None);
    [discriminate | discriminate | reflexivity].
Defined.



(** X20.  When the request gets no answer, [uap_http] raises
    [TransportError] after that one request: it does not try again and
    returns nothing. *)
Theorem uap_http_unreachable (net : network) (method url : string)
    (body params : option json) :
  method <> EmptyString ->
  url <> EmptyString ->
  net [] (mk_request (Agent.normalize_method method) url body params)
  = Unreachable ->
  run (Agent.uap_http net method url body params)
  = ([mk_request (Agent.normalize_method method) url body params],
     Raise TransportError).
Proof.
  intros Hm Hu Hnet.
  rewrite (uap_http_run net method url body params Hm Hu).
  cbv zeta. now rewrite Hnet.
Qed.

Lemma uap_http_unreachable_witness :
  run (Agent.uap_http Fixture.svc "get" "http://elsewhere/" None None)
  = ([mk_request "GET" "http://elsewhere/" None None], Raise TransportError).
Proof.
  apply (uap_http_unreachable Fixture.svc "get" "http://elsewhere/" None None);
    [discriminate | discriminate | reflexivity].
Defined.

(** * The command line of the agent *)

Lemma blank_join_space (words : list string) :
  forallb Str.blank words = true ->
  Str.blank (AgentMain.join_space words) = true.
Proof.
  induction words as [|w rest IH]; [reflexivity|].
  intros [Hw Hr]%andb_prop. cbn [AgentMain.join_space].
  destruct rest as [|w' rest']; [exact Hw|].
  rewrite !blank_app, Hw, (IH Hr). reflexivity.
Qed.

(** X21.  The query [main] sends to the agent is never empty and neither
    starts nor ends with white space; when there is no argument after the
    program name, or only arguments of white space, it is the default
    query. *)
Theorem user_query_default (argv : list string) :
  AgentMain.user_query argv <> EmptyString
  /\ Str.trimmed (AgentMain.user_query argv)
  /\ (forallb Str.blank (tail argv) = true ->
      AgentMain.user_query argv = AgentMain.DEFAULT_QUERY).
Proof.
  unfold AgentMain.user_query. split; [|split].
  - destruct (PyStr.strip _) eqn:Hq; simpl; discriminate.
  - destruct (PyStr.truthy _) eqn:Ht.
    + apply strip_trimmed.
    + split; intros c [= <-]; reflexivity.
  - intros Hb. rewrite strip_blank; [reflexivity|].
    now apply blank_join_space.
Qed.

Lemma user_query_default_witness :
  AgentMain.user_query ["agent.py"; " "; ""] = AgentMain.DEFAULT_QUERY
  /\ AgentMain.user_query ["agent.py"] = AgentMain.DEFAULT_QUERY.
Proof.
  split.
  - apply (proj2 (proj2 (user_query_default ["agent.py"; " "; ""]))).
    reflexivity.
  - apply (proj2 (proj2 (user_query_default ["agent.py"]))). reflexivity.
Defined.

(** The arguments are joined by single spaces and trimmed at both ends
    only. *)
Example user_query_joined :
  AgentMain.user_query ["agent.py"; " book"; "room-101 "]
  = "book room-101".
Proof. reflexivity. Qed.
